(** * HOA bylaws assistant: the HTTP façade and the RAG service

    A shallow embedding of [backend/main.py] and [backend/rag_service.py].
    The FastAPI handlers and the [RAGService] methods are state-passing
    functions over a [World] (process environment, file system, the service
    object, a monotonic clock and the log of library calls), in a monad with
    exceptions and task cancellation.  LangChain, FAISS, the PDF loader and
    the language model are external libraries: what they compute, and how
    long they take, is supplied by the class [Libraries].

    Conventions of the model:
    - time is counted in milliseconds; a library call takes its [latency],
      everything else takes no time; a call without latency never returns;
    - a library call is logged, when it starts, with the thread that makes
      it; [asyncio.wait_for] is logged too;
    - a task under [wait_for] is cancelled at the [await] where its deadline
      passes; code that blocks the event loop is not interrupted;
    - files are named by their path up to a leading [./]; a file holds
      bytes, a JSON object, or one of the two files of a saved index;
    - requests are served one after the other. *)

From Stdlib Require Import Ascii String.
From stdpp Require Import base numbers option list strings pretty gmap.

(** ** Python built-ins used by the program *)

Module Py.

(** The character [chr(10)]. *)
Definition LF : string := String (ascii_of_nat 10) EmptyString.

(** [s.startswith(p)] *)
Fixpoint startswith (s p : string) : bool :=
  match p with
  | EmptyString => true
  | String a p' =>
      match s with
      | EmptyString => false
      | String b s' => Ascii.eqb a b && startswith s' p'
      end
  end.

(** [s.endswith(suf)] *)
Definition endswith (s suf : string) : bool :=
  let n := String.length s in
  let k := String.length suf in
  if (k <=? n)%nat then String.eqb (String.substring (n - k) k s) suf
  else false.

(** [c.lower()] on the ASCII range. *)
Definition lower_ascii (c : ascii) : ascii :=
  let n := nat_of_ascii c in
  if ((65 <=? n) && (n <=? 90))%nat then ascii_of_nat (n + 32) else c.

(** [s.lower()] *)
Fixpoint lower (s : string) : string :=
  match s with
  | EmptyString => EmptyString
  | String c r => String (lower_ascii c) (lower r)
  end.

Fixpoint after_last_slash (s cur : string) : string :=
  match s with
  | EmptyString => cur
  | String c r =>
      if Ascii.eqb c "/" then after_last_slash r r
      else after_last_slash r cur
  end.

(** [os.path.basename(p)] (posixpath): what follows the last slash. *)
Definition basename (p : string) : string := after_last_slash p p.

Fixpoint before_last_slash (s : string) : option string :=
  match s with
  | EmptyString => None
  | String c r =>
      match before_last_slash r with
      | Some d => Some (String c d)
      | None => if Ascii.eqb c "/" then Some EmptyString else None
      end
  end.

(** The directory part of a path, [None] when the path has no slash. *)
Definition parent (p : string) : option string := before_last_slash p.

(** [os.path.join(a, b)] (posixpath, two arguments). *)
Definition path_join (a b : string) : string :=
  if startswith b "/" then b
  else if String.eqb a "" || endswith a "/" then a +:+ b
  else a +:+ "/" +:+ b.

(** Paths name files up to a leading [./] (a convention of the model:
    [./faiss_index/index.faiss] and [faiss_index/index.faiss] are one
    file). *)
Fixpoint strip_dot (fuel : nat) (p : string) : string :=
  match fuel with
  | O => p
  | S n =>
      match p with
      | String "." (String "/" r) => strip_dot n r
      | _ => p
      end
  end.

Definition canonical (p : string) : string := strip_dot (String.length p) p.

(** Zero-padded decimal, the [%02d] / [%04d] / [%06d] of [strftime] and
    [isoformat]. *)
Fixpoint zeros (n : nat) : string :=
  match n with O => "" | S k => "0" +:+ zeros k end.

Definition pad0 (width : nat) (n : N) : string :=
  let s := pretty n in
  zeros (width - String.length s) +:+ s.

Record datetime := mk_datetime {
  year : N; month : N; day : N;
  hour : N; minute : N; second : N; microsecond : N }.

(** [dt.strftime('%Y%m%d%H%M%S')] *)
Definition strftime_compact (dt : datetime) : string :=
  pad0 4 (year dt) +:+ pad0 2 (month dt) +:+ pad0 2 (day dt) +:+
  pad0 2 (hour dt) +:+ pad0 2 (minute dt) +:+ pad0 2 (second dt).

(** [dt.isoformat()]: the fraction is printed only when it is not zero. *)
Definition isoformat (dt : datetime) : string :=
  pad0 4 (year dt) +:+ "-" +:+ pad0 2 (month dt) +:+ "-" +:+ pad0 2 (day dt)
  +:+ "T" +:+ pad0 2 (hour dt) +:+ ":" +:+ pad0 2 (minute dt) +:+ ":"
  +:+ pad0 2 (second dt) +:+
  (if decide (microsecond dt = 0%N) then ""
   else "." +:+ pad0 6 (microsecond dt)).

(** [", ".join(l)] and friends. *)
Fixpoint join (sep : string) (l : list string) : string :=
  match l with
  | [] => ""
  | [x] => x
  | x :: r => x +:+ sep +:+ join sep r
  end.

End Py.

(** ** Data model *)

(** Python exceptions, by the classes the program tells apart.  Every one of
    them is an instance of [Exception]; cancellation of a task is not (it is
    the outcome [Cancelled] below). *)
Inductive Exc :=
  | Exception (msg : string)
  | HTTPException (status_code : N) (detail : string)
  | TimeoutError
  | OtherError (cls : string) (msg : string).

(** [str(e)] *)
Definition str_exc (e : Exc) : string :=
  match e with
  | Exception msg => msg
  | HTTPException code detail => pretty code +:+ ": " +:+ detail
  | TimeoutError => ""
  | OtherError _ msg => msg
  end.

(** What a library call gives back: a value or a raised exception. *)
Inductive result (A : Type) :=
  | Ok (a : A)
  | Err (e : Exc).
Arguments Ok {A} a.
Arguments Err {A} e.

(** A metadata value of a LangChain document. *)
Inductive MetaVal :=
  | MStr (s : string)
  | MInt (z : Z).

Record Document := mk_Document {
  page_content : string;
  metadata : gmap string MetaVal }.

(** The embedding clients of [_get_embeddings]. *)
Inductive Embeddings :=
  | OpenAIEmbeddings (openai_api_key : string)
  | HuggingFaceEmbeddings (model_name : string).

(** The language-model clients of [_get_llm]; the numeric settings are the
    constants of the source (temperature 0, 0 and 0.1). *)
Inductive LLM :=
  | ChatOpenAI (model_name openai_api_key : string)
  | Ollama (base_url model : string) (timeout : N)
  | HuggingFaceEndpoint (repo_id huggingfacehub_api_token : string)
      (max_new_tokens : N).

(** A FAISS store: the indexed chunks and the embedding client; the vectors
    are a function of the two. *)
Record VectorStore := mk_VectorStore {
  vs_docs : list Document;
  vs_embedding : Embeddings }.

(** [vectorstore.as_retriever(search_kwargs={"k": k})].  The retriever holds
    a reference to the store it was made from.  [self.vectorstore] is only
    assigned while it is [None], so a service has at most one store object in
    its life and the reference always designates the object in the field
    [vectorstore]: a retriever reads that field when it is invoked, which is
    how later [add_documents] calls on the shared object become visible. *)
Record Retriever := mk_Retriever { search_k : nat }.

(** The LCEL sequence assembled by [_initialize_qa_chain]. *)
Record Chain := mk_Chain {
  chain_retriever : Retriever;
  chain_llm : LLM }.

(** The attributes of a [RAGService]; [None] is Python's [None], and for
    [retriever], which [__init__] does not set, a missing attribute.  The
    executor is the constant [ServiceExecutor] below. *)
Record RAGService := mk_RAGService {
  embeddings : option Embeddings;
  vectorstore : option VectorStore;
  qa_chain : option Chain;
  llm : option LLM;
  persist_directory : string;
  retriever : option Retriever }.

(** JSON values written by [json.dump]. *)
Inductive JValue :=
  | JStr (s : string)
  | JNull.

(** What a file holds. *)
Inductive Content :=
  | CBytes (b : list Byte.byte)
  | CJson (fields : list (string * JValue))
  | CFaissIndex (n : nat)
  | CPickle (docs : list Document).

(** Where a call runs: on the event loop, or on a worker thread of a pool. *)
Inductive Pool :=
  | ServiceExecutor
  | DefaultExecutor.

Inductive Where :=
  | OnLoop
  | OnExecutor (p : Pool).

(** The calls into the library stack. *)
Inductive Call :=
  | PyPDFLoader_load (file_path : string)
  | split_documents (chunk_size chunk_overlap : nat)
  | FAISS_from_documents
  | FAISS_add_documents
  | FAISS_save_local (folder : string)
  | FAISS_load_local (folder : string)
  | retriever_invoke (k : nat) (query : string)
  | prompt_invoke
  | llm_invoke (prompt : string)
  | StrOutputParser_invoke.

Inductive Event :=
  | Called (wh : Where) (c : Call)
  | WaitFor (timeout_ms : N).

(** The state of the server process and of its surroundings:
    - [environ]: [os.environ], after [load_dotenv()];
    - [files], [dirs]: the regular files and the directories;
    - [ticks]: how many times [datetime.now()] has been read;
    - [elapsed]: the monotonic clock, in milliseconds;
    - [deadline]: when the running task is to be cancelled, if it is under
      a [wait_for];
    - [trace]: the library calls and [wait_for]s so far, oldest first;
    - [rag_service]: the module-level [rag_service = RAGService()]. *)
Record World := mk_World {
  environ : gmap string string;
  files : gmap string Content;
  dirs : gset string;
  ticks : nat;
  elapsed : N;
  deadline : option N;
  trace : list Event;
  rag_service : RAGService }.

(** How a computation ends: it returns, raises, is cancelled at an [await],
    or never comes back. *)
Inductive Outcome (A : Type) :=
  | Returned (a : A)
  | Raised (e : Exc)
  | Cancelled
  | Hangs.
Arguments Returned {A} a.
Arguments Raised {A} e.
Arguments Cancelled {A}.
Arguments Hangs {A}.

(** ** The external libraries *)

Class Libraries := {
  (** how long a call takes, in milliseconds; [None]: it never returns *)
  latency : Call -> option N;
  (** [datetime.now()], by the number of earlier readings *)
  clock : nat -> Py.datetime;
  (** the text of the pages of a PDF file *)
  pdf_pages : list Byte.byte -> result (list string);
  (** [RecursiveCharacterTextSplitter(chunk_size, chunk_overlap).split_text] *)
  split_text : nat -> nat -> string -> list string;
  (** embedding a batch of chunk texts: done, or the error raised *)
  embed_documents : Embeddings -> list string -> result unit;
  (** the chunks of a store by decreasing similarity to a query *)
  rank : Embeddings -> list Document -> string -> result (list Document);
  (** [llm.invoke(prompt)] followed by the parser's view of the reply *)
  llm_reply : LLM -> string -> result string;
  (** iteration order of a [set] of strings *)
  set_order : list string -> list string;
  set_order_perm : forall l, set_order l ≡ₚ l }.

(** ** State updates *)

Definition with_files (f : gmap string Content) (w : World) : World :=
  mk_World (environ w) f (dirs w) (ticks w) (elapsed w) (deadline w)
    (trace w) (rag_service w).

Definition with_dirs (d : gset string) (w : World) : World :=
  mk_World (environ w) (files w) d (ticks w) (elapsed w) (deadline w)
    (trace w) (rag_service w).

Definition with_ticks (n : nat) (w : World) : World :=
  mk_World (environ w) (files w) (dirs w) n (elapsed w) (deadline w)
    (trace w) (rag_service w).

Definition with_elapsed (t : N) (w : World) : World :=
  mk_World (environ w) (files w) (dirs w) (ticks w) t (deadline w)
    (trace w) (rag_service w).

Definition with_deadline (d : option N) (w : World) : World :=
  mk_World (environ w) (files w) (dirs w) (ticks w) (elapsed w) d
    (trace w) (rag_service w).

Definition with_trace (t : list Event) (w : World) : World :=
  mk_World (environ w) (files w) (dirs w) (ticks w) (elapsed w) (deadline w)
    t (rag_service w).

Definition with_rag (s : RAGService) (w : World) : World :=
  mk_World (environ w) (files w) (dirs w) (ticks w) (elapsed w) (deadline w)
    (trace w) s.

Definition set_embeddings (e : option Embeddings) (s : RAGService) :=
  mk_RAGService e (vectorstore s) (qa_chain s) (llm s)
    (persist_directory s) (retriever s).

Definition set_vectorstore (v : option VectorStore) (s : RAGService) :=
  mk_RAGService (embeddings s) v (qa_chain s) (llm s)
    (persist_directory s) (retriever s).

Definition set_qa_chain (c : option Chain) (s : RAGService) :=
  mk_RAGService (embeddings s) (vectorstore s) c (llm s)
    (persist_directory s) (retriever s).

Definition set_llm (l : option LLM) (s : RAGService) :=
  mk_RAGService (embeddings s) (vectorstore s) (qa_chain s) l
    (persist_directory s) (retriever s).

Definition set_retriever (r : option Retriever) (s : RAGService) :=
  mk_RAGService (embeddings s) (vectorstore s) (qa_chain s) (llm s)
    (persist_directory s) r.

(** ** The monad of the program: state, exceptions, cancellation *)

Definition M (A : Type) : Type := World -> Outcome A * World.

Definition ret {A} (a : A) : M A := fun w => (Returned a, w).

Definition bind {A B} (m : M A) (k : A -> M B) : M B :=
  fun w =>
    match m w with
    | (Returned a, w') => k a w'
    | (Raised e, w') => (Raised e, w')
    | (Cancelled, w') => (Cancelled, w')
    | (Hangs, w') => (Hangs, w')
    end.

Notation "x <- m ;; k" := (bind m (fun x => k))
  (at level 20, m at level 99, k at level 200, only parsing).
Notation "m ;; k" := (bind m (fun _ => k))
  (at level 100, k at level 200, right associativity, only parsing).

Definition raise {A} (e : Exc) : M A := fun w => (Raised e, w).

(** [try: m  except Exception as e: h e].  Cancellation and a call that
    never returns are not exceptions and pass through. *)
Definition try_except {A} (m : M A) (h : Exc -> M A) : M A :=
  fun w =>
    match m w with
    | (Raised e, w') => h e w'
    | r => r
    end.

Definition lift {A} (r : result A) : M A :=
  match r with
  | Ok a => ret a
  | Err e => raise e
  end.

Definition get_world : M World := fun w => (Returned w, w).

Definition modify (f : World -> World) : M unit :=
  fun w => (Returned tt, f w).

Definition get_self : M RAGService := fun w => (Returned (rag_service w), w).

Definition update_self (f : RAGService -> RAGService) : M unit :=
  modify (fun w => with_rag (f (rag_service w)) w).

Section Runtime.
Context {L : Libraries}.

(** A call into a library, made by the thread [wh]: it is logged when it
    starts and takes [latency] to come back. *)
Definition lib_call (wh : Where) (c : Call) : M unit :=
  fun w =>
    let w1 := with_trace (trace w ++ [Called wh c]) w in
    match latency c with
    | None => (Hangs, w1)
    | Some d => (Returned tt, with_elapsed (elapsed w1 + d) w1)
    end.

(** [await loop.run_in_executor(pool, body)].  The body runs on a worker
    thread.  The awaiting task resumes when the thread is done; when the
    task has a deadline that passes first, the task is cancelled at this
    [await] (the thread itself cannot be interrupted: what it does still
    happens). *)
Definition run_in_executor {A} (pool : Pool) (body : Where -> M A) : M A :=
  fun w =>
    let '(o, w') := body (OnExecutor pool) w in
    match deadline w with
    | None => (o, w')
    | Some d =>
        let late :=
          match o with
          | Hangs => true
          | _ => (d <? elapsed w')%N
          end in
        if late then (Cancelled, with_elapsed (N.max (elapsed w) d) w')
        else (o, w')
    end.

(** [await asyncio.wait_for(m, timeout)], the timeout in milliseconds. *)
Definition wait_for {A} (m : M A) (timeout_ms : N) : M A :=
  fun w =>
    let w0 :=
      with_deadline (Some (elapsed w + timeout_ms)%N)
        (with_trace (trace w ++ [WaitFor timeout_ms]) w) in
    let '(o, w') := m w0 in
    let w'' := with_deadline (deadline w) w' in
    match o with
    | Cancelled => (Raised TimeoutError, w'')
    | _ => (o, w'')
    end.

(** [datetime.now()] *)
Definition datetime_now : M Py.datetime :=
  fun w => (Returned (clock (ticks w)), with_ticks (S (ticks w)) w).

(** [os.getenv(name, default)] *)
Definition getenv (env : gmap string string) (name default : string) :=
  match env !! name with
  | Some v => v
  | None => default
  end.

(** *** The file system *)

Definition os_error (errno what path : string) : Exc :=
  OtherError "OSError"
    ("[Errno " +:+ errno +:+ "] " +:+ what +:+ ": '" +:+ path +:+ "'").

(** [os.path.exists(p)] *)
Definition path_exists (p : string) (w : World) : bool :=
  let k := Py.canonical p in
  bool_decide (k ∈ dirs w) || bool_decide (is_Some (files w !! k)).

(** [os.makedirs(p, exist_ok=True)] for the one-component paths of the
    program: a directory that is there is left alone, a regular file of
    that name is an error. *)
Definition os_makedirs (p : string) : M unit :=
  fun w =>
    let k := Py.canonical p in
    if bool_decide (k ∈ dirs w) then (Returned tt, w)
    else match files w !! k with
         | Some _ => (Raised (os_error "17" "File exists" p), w)
         | None => (Returned tt, with_dirs ({[k]} ∪ dirs w) w)
         end.

(** The directory of [p] is there (or [p] names none). *)
Definition parent_ok (p : string) (w : World) : bool :=
  match Py.parent (Py.canonical p) with
  | None => true
  | Some d => String.eqb d "" || bool_decide (d ∈ dirs w)
  end.

(** [with open(p, "w") as f: f.write(c)]: the file is created or
    replaced; its directory must be there and [p] must not be one. *)
Definition write_file (p : string) (c : Content) : M unit :=
  fun w =>
    let k := Py.canonical p in
    if bool_decide (k ∈ dirs w)
    then (Raised (os_error "21" "Is a directory" p), w)
    else if parent_ok p w
    then (Returned tt, with_files (<[k := c]> (files w)) w)
    else (Raised (os_error "2" "No such file or directory" p), w).

End Runtime.

(** ** [rag_service.py] *)

Section RagService.
Context {L : Libraries}.

(** [not s] for an optional string: unset or empty. *)
Definition falsy (o : option string) : bool :=
  match o with
  | None => true
  | Some s => String.eqb s ""
  end.

Definition _get_llm (env : gmap string string) : result LLM :=
  let provider := Py.lower (getenv env "LLM_PROVIDER" "ollama") in
  if String.eqb provider "openai" then
    let api_key := env !! "OPENAI_API_KEY" in
    if falsy api_key then Err (Exception "OPENAI_API_KEY not set")
    else Ok (ChatOpenAI "gpt-3.5-turbo" (default "" api_key))
  else if String.eqb provider "ollama" then
    let base_url := getenv env "OLLAMA_BASE_URL" "http://localhost:11434" in
    let model := getenv env "OLLAMA_MODEL" "mistral" in
    Ok (Ollama base_url model 120)
  else if String.eqb provider "huggingface" then
    let api_key := env !! "HUGGINGFACE_API_KEY" in
    let model :=
      getenv env "HUGGINGFACE_MODEL" "mistralai/Mistral-7B-Instruct-v0.2" in
    if falsy api_key then Err (Exception "HUGGINGFACE_API_KEY not set")
    else Ok (HuggingFaceEndpoint model (default "" api_key) 512)
  else Err (Exception ("Unknown LLM provider: " +:+ provider)).

Definition _get_embeddings (env : gmap string string) : result Embeddings :=
  let provider := Py.lower (getenv env "EMBEDDING_PROVIDER" "huggingface") in
  if String.eqb provider "openai" then
    let api_key := env !! "OPENAI_API_KEY" in
    if falsy api_key then Err (Exception "OPENAI_API_KEY not set")
    else Ok (OpenAIEmbeddings (default "" api_key))
  else if String.eqb provider "huggingface" then
    let model :=
      getenv env "EMBEDDING_MODEL" "sentence-transformers/all-MiniLM-L6-v2" in
    Ok (HuggingFaceEmbeddings model)
  else Err (Exception ("Unknown embedding provider: " +:+ provider)).

(** *** The library objects the service drives *)

(** [FAISS.load_local(folder, embeddings, ...)] *)
Definition FAISS_load (wh : Where) (folder : string) (emb : Embeddings)
  : M VectorStore :=
  lib_call wh (FAISS_load_local folder) ;;
  w <- get_world ;;
  match files w !! Py.canonical (Py.path_join folder "index.faiss"),
        files w !! Py.canonical (Py.path_join folder "index.pkl") with
  | Some (CFaissIndex _), Some (CPickle docs) =>
      ret (mk_VectorStore docs emb)
  | _, _ =>
      raise (OtherError "RuntimeError"
               ("could not read the index in " +:+ folder))
  end.

(** [vectorstore.save_local(folder)] *)
Definition FAISS_save (wh : Where) (vs : VectorStore) (folder : string)
  : M unit :=
  lib_call wh (FAISS_save_local folder) ;;
  os_makedirs folder ;;
  write_file (Py.path_join folder "index.faiss")
    (CFaissIndex (length (vs_docs vs))) ;;
  write_file (Py.path_join folder "index.pkl") (CPickle (vs_docs vs)).

(** [FAISS.from_documents(chunks, embeddings)] *)
Definition FAISS_from (wh : Where) (chunks : list Document)
    (emb : option Embeddings) : M VectorStore :=
  lib_call wh FAISS_from_documents ;;
  match emb with
  | None =>
      raise (OtherError "AttributeError"
               "'NoneType' object has no attribute 'embed_documents'")
  | Some e =>
      lift (embed_documents e (page_content <$> chunks)) ;;
      ret (mk_VectorStore chunks e)
  end.

(** [vectorstore.add_documents(chunks)]: the store object is extended in
    place. *)
Definition FAISS_add (wh : Where) (vs : VectorStore)
    (chunks : list Document) : M unit :=
  lib_call wh FAISS_add_documents ;;
  lift (embed_documents (vs_embedding vs) (page_content <$> chunks)) ;;
  update_self
    (set_vectorstore
       (Some (mk_VectorStore (vs_docs vs ++ chunks) (vs_embedding vs)))).

Definition page_document (file_path : string) (i : nat) (text : string)
  : Document :=
  mk_Document text
    (<["source" := MStr file_path]>
       (<["page" := MInt (Z.of_nat i)]> ∅)).

(** [PyPDFLoader(file_path).load()]: one document per page, carrying the
    path and the 0-based page number. *)
Definition PyPDFLoader (wh : Where) (file_path : string)
  : M (list Document) :=
  w <- get_world ;;
  match files w !! Py.canonical file_path with
  | None =>
      raise (OtherError "ValueError"
               ("File path " +:+ file_path +:+
                " is not a valid file or url"))
  | Some c =>
      lib_call wh (PyPDFLoader_load file_path) ;;
      match c with
      | CBytes b =>
          pages <- lift (pdf_pages b) ;;
          ret (imap (page_document file_path) pages)
      | _ => raise (OtherError "PdfReadError" "invalid pdf header")
      end
  end.

(** [text_splitter.split_documents(documents)]: every chunk keeps the
    metadata of the page it comes from. *)
Definition split_document (size overlap : nat) (d : Document)
  : list Document :=
  (fun t => mk_Document t (metadata d)) <$>
    split_text size overlap (page_content d).

Definition RecursiveCharacterTextSplitter (wh : Where)
    (size overlap : nat) (documents : list Document) : M (list Document) :=
  lib_call wh (split_documents size overlap) ;;
  ret (concat (split_document size overlap <$> documents)).

(** [retriever.invoke(question)] / [get_relevant_documents(question)]:
    the [k] chunks of the store closest to the question. *)
Definition retriever_get (wh : Where) (r : Retriever) (question : string)
  : M (list Document) :=
  lib_call wh (retriever_invoke (search_k r) question) ;;
  self <- get_self ;;
  match vectorstore self with
  | None =>
      raise (OtherError "AttributeError"
               "'NoneType' object has no attribute 'similarity_search'")
  | Some vs =>
      ranked <- lift (rank (vs_embedding vs) (vs_docs vs) question) ;;
      ret (take (search_k r) ranked)
  end.

Definition format_docs (docs : list Document) : string :=
  Py.join (Py.LF +:+ Py.LF) (page_content <$> docs).

Definition prompt_template (context question : string) : string :=
  "You are an HOA assistant. Answer based on the context below. Be concise."
  +:+ Py.LF +:+ Py.LF +:+ "Context: " +:+ context
  +:+ Py.LF +:+ Py.LF +:+ "Question: " +:+ question
  +:+ Py.LF +:+ Py.LF +:+ "Answer:".

(** [qa_chain.invoke(question)]:
    [{context: retriever | format_docs, question: passthrough}
     | prompt | llm | StrOutputParser()]. *)
Definition chain_invoke (wh : Where) (c : Chain) (question : string)
  : M string :=
  docs <- retriever_get wh (chain_retriever c) question ;;
  let context := format_docs docs in
  lib_call wh prompt_invoke ;;
  let prompt := prompt_template context question in
  lib_call wh (llm_invoke prompt) ;;
  reply <- lift (llm_reply (chain_llm c) prompt) ;;
  lib_call wh StrOutputParser_invoke ;;
  ret reply.

(** *** The service *)

(** Nothing in the body can raise in this model, so the [try] of the
    source is left out. *)
Definition _initialize_qa_chain : M unit :=
  self <- get_self ;;
  match llm self, vectorstore self with
  | Some the_llm, Some _ =>
      let retriever := mk_Retriever 2 in
      update_self (set_qa_chain (Some (mk_Chain retriever the_llm))) ;;
      update_self (set_retriever (Some retriever))
  | _, _ => ret tt
  end.

Definition _initialize : M unit :=
  try_except
    (w <- get_world ;;
     emb <- lift (_get_embeddings (environ w)) ;;
     update_self (set_embeddings (Some emb)) ;;
     the_llm <- lift (_get_llm (environ w)) ;;
     update_self (set_llm (Some the_llm)) ;;
     self <- get_self ;;
     let index_file := Py.path_join (persist_directory self) "index.faiss" in
     if path_exists index_file w then
       vs <- FAISS_load OnLoop (persist_directory self) emb ;;
       update_self (set_vectorstore (Some vs)) ;;
       _initialize_qa_chain
     else
       update_self (set_vectorstore None))
    (fun _ => ret tt).

(** [RAGService()] *)
Definition RAGService__init__ : M unit :=
  update_self
    (fun _ => mk_RAGService None None None None "./faiss_index" None) ;;
  _initialize.

Definition is_initialized (self : RAGService) : bool :=
  match qa_chain self with
  | Some _ => true
  | None => false
  end.

(** [if self.vectorstore:] asks whether the attribute is [None]: a FAISS
    store is always truthy. *)
Definition index_document (file_path : string) : M unit :=
  try_except
    (documents <- PyPDFLoader OnLoop file_path ;;
     chunks <- RecursiveCharacterTextSplitter OnLoop 1000 200 documents ;;
     self <- get_self ;;
     match vectorstore self with
     | Some vs => FAISS_add OnLoop vs chunks
     | None =>
         vs <- FAISS_from OnLoop chunks (embeddings self) ;;
         update_self (set_vectorstore (Some vs))
     end ;;
     self <- get_self ;;
     os_makedirs (persist_directory self) ;;
     match vectorstore self with
     | Some vs => FAISS_save OnLoop vs (persist_directory self)
     | None => raise (OtherError "AttributeError" "save_local")
     end ;;
     _initialize_qa_chain)
    (fun e => raise (Exception ("Error indexing document: " +:+ str_exc e))).

Definition DQ : string := String (ascii_of_nat 34) EmptyString.

(** One entry of the sources list:
    [f"{os.path.basename(source)} (Page {page + 1})"]. *)
Definition source_entry (doc : Document) : result string :=
  let source := default (MStr "Unknown") (metadata doc !! "source") in
  let page := default (MStr "N/A") (metadata doc !! "page") in
  match source with
  | MInt _ =>
      Err (OtherError "TypeError"
             "expected str, bytes or os.PathLike object, not int")
  | MStr s =>
      match page with
      | MStr _ =>
          Err (OtherError "TypeError"
                 ("can only concatenate str (not " +:+ DQ +:+ "int" +:+ DQ
                  +:+ ") to str"))
      | MInt z =>
          Ok (Py.basename s +:+ " (Page " +:+ pretty (z + 1)%Z +:+ ")")
      end
  end.

(** The [for doc in docs] loop of [query]. *)
Fixpoint source_entries (docs : list Document) : result (list string) :=
  match docs with
  | [] => Ok []
  | doc :: rest =>
      match source_entry doc with
      | Err e => Err e
      | Ok s =>
          match source_entries rest with
          | Err e => Err e
          | Ok l => Ok (s :: l)
          end
      end
  end.

(** [list(set(sources))] *)
Definition list_set (l : list string) : list string :=
  set_order (remove_dups l).

Record QueryResult := mk_QueryResult {
  answer : string;
  sources : list string }.

Definition not_initialized_message : string :=
  "RAG service not initialized. Please upload documents first or check your configuration.".

Definition query (question : string) : M QueryResult :=
  self <- get_self ;;
  match qa_chain self with
  | None => raise (Exception not_initialized_message)
  | Some chain =>
      try_except
        (the_answer <-
           run_in_executor ServiceExecutor
             (fun wh => chain_invoke wh chain question) ;;
         docs <-
           run_in_executor ServiceExecutor
             (fun wh =>
                self <- get_self ;;
                match retriever self with
                | Some r => retriever_get wh r question
                | None =>
                    raise (OtherError "AttributeError"
                             "'RAGService' object has no attribute 'retriever'")
                end) ;;
         the_sources <- lift (source_entries docs) ;;
         ret (mk_QueryResult the_answer (list_set the_sources)))
        (fun e =>
           raise (Exception ("Error querying RAG system: " +:+ str_exc e)))
  end.

End RagService.

(** ** [main.py] *)

Record Question := mk_Question { question : string }.

Record ChangeRequest := mk_ChangeRequest {
  homeowner_name : string;
  email : string;
  address : string;
  change_type : string;
  description : string;
  urgency : option string }.

Record UploadFile := mk_UploadFile {
  filename : string;
  file_bytes : list Byte.byte }.

(** The JSON bodies the handlers return. *)
Inductive Body :=
  | RootInfo (message version : string)
  | Answer (answer : string) (sources : list string)
  | Uploaded (message filename : string) (size : nat)
  | ChangeRequestResponse (request_id status submitted_at : string)
  | Health (status : string) (rag_initialized : bool)
      (llm_provider model : string) (has_documents : bool)
  | LlmTest (status message : string) (test_response : option string).

Section Main.
Context {L : Libraries}.

Definition read_root : M Body :=
  ret (RootInfo "HOA Bylaws Lookup API" "1.0.0").

Definition ask_timeout_detail : string :=
  "Query timed out after 120 seconds. The LLM may be slow or not responding. If using Ollama, ensure it's running and try: 'ollama run mistral' to warm up the model.".

Definition ask_question (q : Question) : M Body :=
  try_except
    (r <- wait_for (query (question q)) 120000 ;;
     ret (Answer (answer r) (sources r)))
    (fun e =>
       match e with
       | TimeoutError => raise (HTTPException 504 ask_timeout_detail)
       | _ => raise (HTTPException 500 (str_exc e))
       end).

Definition upload_bylaws (file : UploadFile) : M Body :=
  if negb (Py.endswith (filename file) ".pdf") then
    raise (HTTPException 400 "Only PDF files are allowed")
  else
    try_except
      (os_makedirs "documents" ;;
       let content := file_bytes file in
       if (length content =? 0)%nat then
         raise (HTTPException 400 "Uploaded file is empty")
       else
         let file_path := Py.path_join "documents" (filename file) in
         write_file file_path (CBytes content) ;;
         index_document file_path ;;
         ret (Uploaded
                ("Document " +:+ filename file
                 +:+ " uploaded and indexed successfully")
                (filename file) (length content)))
      (fun e =>
         match e with
         | HTTPException _ _ => raise e
         | _ =>
             raise (HTTPException 500
                      ("Error processing document: " +:+ str_exc e))
         end).

Definition json_opt (o : option string) : JValue :=
  match o with
  | Some s => JStr s
  | None => JNull
  end.

(** [d[key]] on the dict written by [submit_change_request]. *)
Fixpoint dict_get (d : list (string * JValue)) (key : string)
  : option JValue :=
  match d with
  | [] => None
  | (k, v) :: rest => if String.eqb k key then Some v else dict_get rest key
  end.

Definition submit_change_request (request : ChangeRequest) : M Body :=
  try_except
    (t1 <- datetime_now ;;
     let request_id := "REQ-" +:+ Py.strftime_compact t1 in
     let requests_dir := "requests" in
     os_makedirs requests_dir ;;
     t2 <- datetime_now ;;
     let request_data :=
       [ ("request_id", JStr request_id);
         ("homeowner_name", JStr (homeowner_name request));
         ("email", JStr (email request));
         ("address", JStr (address request));
         ("change_type", JStr (change_type request));
         ("description", JStr (description request));
         ("urgency", json_opt (urgency request));
         ("status", JStr "submitted");
         ("submitted_at", JStr (Py.isoformat t2)) ] in
     write_file (requests_dir +:+ "/" +:+ request_id +:+ ".json")
       (CJson request_data) ;;
     match dict_get request_data "submitted_at" with
     | Some (JStr at_) =>
         ret (ChangeRequestResponse request_id "submitted" at_)
     | _ => raise (OtherError "KeyError" "'submitted_at'")
     end)
    (fun e => raise (HTTPException 500 (str_exc e))).

Definition health_check : M Body :=
  w <- get_world ;;
  let provider := getenv (environ w) "LLM_PROVIDER" "ollama" in
  let model :=
    getenv (environ w)
      (if String.eqb provider "ollama" then "OLLAMA_MODEL"
       else "HUGGINGFACE_MODEL")
      "mistral" in
  ret (Health "healthy" (is_initialized (rag_service w)) provider model
         (bool_decide (is_Some (vectorstore (rag_service w))))).

Definition test_llm : M Body :=
  try_except
    (self <- get_self ;;
     match llm self with
     | None => ret (LlmTest "error" "LLM not initialized" None)
     | Some the_llm =>
         response <-
           wait_for
             (run_in_executor DefaultExecutor
                (fun wh =>
                   lib_call wh (llm_invoke "Say 'Hello'") ;;
                   lift (llm_reply the_llm "Say 'Hello'")))
             10000 ;;
         ret (LlmTest "success" "LLM is responding" (Some response))
     end)
    (fun e =>
       match e with
       | TimeoutError =>
           ret (LlmTest "error"
                  "LLM timed out. If using Ollama, make sure it's running: 'ollama serve'"
                  None)
       | _ =>
           ret (LlmTest "error" ("LLM test failed: " +:+ str_exc e) None)
       end).

(** *** The routes of the application *)

Inductive Method :=
  | GET
  | POST.

Inductive Handler :=
  | h_read_root
  | h_ask_question
  | h_upload_bylaws
  | h_submit_change_request
  | h_health_check
  | h_test_llm.

(** The [@app.get] / [@app.post] decorators, in the order of the file. *)
Definition routes : list (Method * string * Handler) :=
  [ (GET, "/", h_read_root);
    (POST, "/api/ask", h_ask_question);
    (POST, "/api/upload-bylaws", h_upload_bylaws);
    (POST, "/api/submit-request", h_submit_change_request);
    (GET, "/api/health", h_health_check);
    (GET, "/api/test-llm", h_test_llm) ].

(** What a request carries after FastAPI has validated it. *)
Inductive Payload :=
  | NoPayload
  | JsonQuestion (q : Question)
  | FormFile (f : UploadFile)
  | JsonChangeRequest (r : ChangeRequest).

Definition run_handler (h : Handler) (p : Payload) : option (M Body) :=
  match h, p with
  | h_read_root, _ => Some read_root
  | h_ask_question, JsonQuestion q => Some (ask_question q)
  | h_upload_bylaws, FormFile f => Some (upload_bylaws f)
  | h_submit_change_request, JsonChangeRequest r =>
      Some (submit_change_request r)
  | h_health_check, _ => Some health_check
  | h_test_llm, _ => Some test_llm
  | _, _ => None
  end.

Definition method_eqb (a b : Method) : bool :=
  match a, b with
  | GET, GET | POST, POST => true
  | _, _ => false
  end.

(** The first route whose method and path match. *)
Definition find_route (m : Method) (path : string) : option Handler :=
  snd <$>
    List.find (fun r => method_eqb (fst (fst r)) m
                        && String.eqb (snd (fst r)) path) routes.

(** What goes back to the client. *)
Inductive Reply :=
  | Json (b : Body)
  | Detail (d : string)
  | InternalServerError.

Record Response := mk_Response {
  status_code : N;
  reply : Reply }.

(** FastAPI's rendering of a handler's outcome; [None]: no response is
    ever sent. *)
Definition respond {A} (f : A -> Reply) (o : Outcome A) : option Response :=
  match o with
  | Returned b => Some (mk_Response 200 (f b))
  | Raised (HTTPException code detail) =>
      Some (mk_Response code (Detail detail))
  | Raised _ => Some (mk_Response 500 InternalServerError)
  | Cancelled => None
  | Hangs => None
  end.

Definition app (m : Method) (path : string) (p : Payload) (w : World)
  : option Response * World :=
  match find_route m path with
  | None => (Some (mk_Response 404 (Detail "Not Found")), w)
  | Some h =>
      match run_handler h p with
      | None => (Some (mk_Response 422 (Detail "Unprocessable Entity")), w)
      | Some run => let '(o, w') := run w in (respond Json o, w')
      end
  end.


(** The library calls of a run. *)
Fixpoint calls (t : list Event) : list (Where * Call) :=
  match t with
  | [] => []
  | Called wh c :: r => (wh, c) :: calls r
  | WaitFor _ :: r => calls r
  end.

End Main.

(** ** Reachable states

    The process builds the service once (the module-level [RAGService()])
    and then serves requests. *)

Section Reachable.
Context {L : Libraries}.

Inductive reachable : World -> Prop :=
  | reach_start (w0 : World) :
      reachable (RAGService__init__ w0).2
  | reach_request (w : World) (m : Method) (path : string) (p : Payload) :
      reachable w -> reachable (app m path p w).2.


End Reachable.

(** ** A concrete instantiation of the libraries, to run the model *)

Module Toy.

Definition pdf_header : list Byte.byte :=
  [Byte.x25; Byte.x50; Byte.x44; Byte.x46].

Definition toy_pdf_pages (b : list Byte.byte) : result (list string) :=
  match b with
  | Byte.x25 :: _ =>
      Ok ["Fences may be six feet tall."; "Solar panels are allowed."]
  | _ => Err (OtherError "PdfReadError" "invalid pdf header")
  end.

Definition toy_embed (e : Embeddings) (texts : list string) : result unit :=
  match texts with
  | [] => Err (OtherError "IndexError" "list index out of range")
  | _ => Ok tt
  end.

Definition toy_clock (n : nat) : Py.datetime :=
  Py.mk_datetime 2024 3 7 9 5 (N.of_nat n) (1234 * N.of_nat n).

(** Every call takes a millisecond, except the model, which takes
    [llm_ms]. *)
Definition toy_latency (llm_ms : option N) (c : Call) : option N :=
  match c with
  | llm_invoke _ => llm_ms
  | _ => Some 1%N
  end.

Definition libraries (llm_ms : option N) : Libraries :=
  {| latency := toy_latency llm_ms;
     clock := toy_clock;
     pdf_pages := toy_pdf_pages;
     split_text := fun _ _ s => [s];
     embed_documents := toy_embed;
     rank := fun _ docs _ => Ok docs;
     llm_reply := fun _ _ => Ok "Yes, with approval.";
     set_order := reverse;
     set_order_perm := @reverse_Permutation string |}.

Definition blank_service : RAGService :=
  mk_RAGService None None None None "" None.

(** A fresh checkout: no environment variables, no files. *)
Definition w_empty : World :=
  mk_World ∅ ∅ ∅ 0 0 None [] blank_service.

Definition bylaws : UploadFile := mk_UploadFile "Bylaws.pdf" pdf_header.

Definition fence_request : ChangeRequest :=
  mk_ChangeRequest "Ada Park" "ada@example.org" "12 Elm St" "fence"
    "Replace the back fence" (Some "normal").

(** The index saved by an earlier run is on disk, the provider is OpenAI
    and no key is set. *)
Definition w_saved_no_key : World :=
  mk_World {["LLM_PROVIDER" := "openai"]}
    (<["faiss_index/index.pkl" := CPickle []]>
       (<["faiss_index/index.faiss" := CFaissIndex 0]> ∅))
    {["faiss_index"]} 0 0 None [] blank_service.

(** The same disk under the default configuration. *)
Definition w_saved : World :=
  mk_World ∅
    (<["faiss_index/index.pkl" := CPickle []]>
       (<["faiss_index/index.faiss" := CFaissIndex 0]> ∅))
    {["faiss_index"]} 0 0 None [] blank_service.

Definition fence_question : Question := mk_Question "May I build a fence?".

(** The model answers in 5 ms; it answers in 11 s; it never answers. *)
Definition quick : Libraries := libraries (Some 5%N).
Definition slow : Libraries := libraries (Some 11000%N).
Definition stuck : Libraries := libraries None.

(** The server has started in the fresh checkout. *)
Definition w_started : World := (@RAGService__init__ quick w_empty).2.


(** ... and [Bylaws.pdf] has been uploaded. *)
Definition w_indexed : World :=
  (@app quick POST "/api/upload-bylaws" (FormFile bylaws) w_started).2.

End Toy.

(** ** Vocabulary of the properties *)

(** [steps R m]: whatever [m] does and however it ends, the states before
    and after are related by [R]. *)
Definition steps (R : World -> World -> Prop) {A} (m : M A) : Prop :=
  forall w, R w (m w).2.

(** [wp m Q w]: run from [w], [m] ends in an outcome and a state that
    satisfy [Q]. *)
Definition wp {A} (m : M A) (Q : Outcome A -> World -> Prop) (w : World)
  : Prop :=
  Q (m w).1 (m w).2.

(** The postcondition of the first half of a [bind]. *)
Definition then_wp {A B} (k : A -> M B) (Q : Outcome B -> World -> Prop)
  : Outcome A -> World -> Prop :=
  fun o w =>
    match o with
    | Returned a => wp (k a) Q w
    | Raised e => Q (Raised e) w
    | Cancelled => Q Cancelled w
    | Hangs => Q Hangs w
    end.

(** The postcondition of the body of a [try]. *)
Definition except_wp {A} (h : Exc -> M A) (Q : Outcome A -> World -> Prop)
  : Outcome A -> World -> Prop :=
  fun o w =>
    match o with
    | Raised e => wp (h e) Q w
    | _ => Q o w
    end.

(** The postcondition of the thread behind [run_in_executor], for a task
    that started waiting in [w]. *)
Definition executor_wp {A} (w : World) (Q : Outcome A -> World -> Prop)
  : Outcome A -> World -> Prop :=
  fun o w' =>
    match deadline w with
    | None => Q o w'
    | Some d =>
        if match o with Hangs => true | _ => (d <? elapsed w')%N end
        then Q Cancelled (with_elapsed (N.max (elapsed w) d) w')
        else Q o w'
    end.

(** The postcondition of the computation under [wait_for], for a task whose
    own deadline is [old]. *)
Definition wait_for_wp {A} (old : option N) (Q : Outcome A -> World -> Prop)
  : Outcome A -> World -> Prop :=
  fun o w' =>
    match o with
    | Cancelled => Q (Raised TimeoutError) (with_deadline old w')
    | _ => Q o (with_deadline old w')
    end.

(** The service object keeps a property. *)
Definition keeps (I : RAGService -> Prop) (w w' : World) : Prop :=
  I (rag_service w) -> I (rag_service w').

(** The log grows by events that all satisfy [P]. *)
Definition emits (P : Event -> Prop) (w w' : World) : Prop :=
  exists evs, trace w' = trace w ++ evs /\ Forall P evs.

(** The dict [request_data] of [submit_change_request]. *)
Definition request_record (request : ChangeRequest)
    (request_id submitted_at : string) : list (string * JValue) :=
  [ ("request_id", JStr request_id);
    ("homeowner_name", JStr (homeowner_name request));
    ("email", JStr (email request));
    ("address", JStr (address request));
    ("change_type", JStr (change_type request));
    ("description", JStr (description request));
    ("urgency", json_opt (urgency request));
    ("status", JStr "submitted");
    ("submitted_at", JStr submitted_at) ].

Global Instance Method_eq_dec : EqDecision Method.
Proof. solve_decision. Defined.



(** What holds of the service object in every reachable state. *)
Definition service_inv (self : RAGService) : Prop :=
  persist_directory self = "./faiss_index"
  /\ (forall c, qa_chain self = Some c ->
        chain_retriever c = mk_Retriever 2
        /\ llm self = Some (chain_llm c)
        /\ is_Some (vectorstore self)
        /\ retriever self = Some (mk_Retriever 2))
  /\ (forall r, retriever self = Some r -> search_k r = 2%nat).

(** The invariant behind [is_initialized]. *)
Definition chain_has_parts (self : RAGService) : Prop :=
  is_initialized self = true ->
  is_Some (llm self) /\ is_Some (vectorstore self).

Section IndexingVocabulary.
Context {L : Libraries}.

(** The chunks [index_document] derives from the pages of a PDF. *)
Definition chunks_of (file_path : string) (pages : list string)
  : list Document :=
  concat (split_document 1000 200 <$> imap (page_document file_path) pages).

(** The chunks held by the store of a service, none when there is no
    store. *)
Definition stored_docs (self : RAGService) : list Document :=
  match vectorstore self with
  | Some vs => vs_docs vs
  | None => []
  end.

(** The library call with which [index_document] embeds the chunks. *)
Definition embed_call (self : RAGService) : Call :=
  match vectorstore self with
  | Some _ => FAISS_add_documents
  | None => FAISS_from_documents
  end.

(** The two files of a saved index. *)
Definition index_faiss (self : RAGService) : string :=
  Py.canonical (Py.path_join (persist_directory self) "index.faiss").

Definition index_pkl (self : RAGService) : string :=
  Py.canonical (Py.path_join (persist_directory self) "index.pkl").

(** The library calls of one run of the QA chain, in the order of the
    chain, for the retrieved chunks [docs]. *)
Definition chain_calls (wh : Where) (c : Chain) (q : string)
    (docs : list Document) : list Event :=
  [ Called wh (retriever_invoke (search_k (chain_retriever c)) q);
    Called wh prompt_invoke;
    Called wh (llm_invoke (prompt_template (format_docs docs) q));
    Called wh StrOutputParser_invoke ].

(** What the retriever [r] finds for [q] in the store of [self]. *)
Definition retrieved (self : RAGService) (r : Retriever) (q : string)
    (docs : list Document) : Prop :=
  exists vs ranked,
    vectorstore self = Some vs
    /\ rank (vs_embedding vs) (vs_docs vs) q = Ok ranked
    /\ docs = take (search_k r) ranked.

(** A sources entry: the base name of [src] and the page number counted
    from 1, for the stored page number [page]. *)
Definition entry_text (src : string) (page : Z) : string :=
  Py.basename src +:+ " (Page " +:+ pretty (page + 1)%Z +:+ ")".

End IndexingVocabulary.

(** ** [reindex.py] *)

(** The order in which the operating system lists a directory. *)
Class Listing := {
  listdir_order : list string -> list string;
  listdir_order_perm : forall l, listdir_order l ≡ₚ l }.

Section Reindex.
Context {L : Libraries} {O : Listing}.

(** The names of the files and directories that sit directly in the
    directory [d]. *)
Definition entries_of (d : string) (w : World) : list string :=
  Py.basename <$>
    filter (fun k => Py.parent k = Some d)
      (elements (dom (files w)) ++ elements (dirs w)).

(** [os.listdir(p)] *)
Definition os_listdir (p : string) : M (list string) :=
  fun w =>
    let d := Py.canonical p in
    if bool_decide (d ∈ dirs w)
    then (Returned (listdir_order (entries_of d w)), w)
    else match files w !! d with
         | Some _ => (Raised (os_error "20" "Not a directory" p), w)
         | None =>
             (Raised (os_error "2" "No such file or directory" p), w)
         end.

(** [[f for f in names if f.endswith('.pdf')]] *)
Definition pdf_names (names : list string) : list string :=
  List.filter (fun f => Py.endswith f ".pdf") names.

(** The second [for pdf in pdf_files] loop of [reindex_documents]: an
    exception of [index_document] is printed and the loop goes on. *)
Fixpoint index_each (docs_dir : string) (pdf_files : list string)
  : M unit :=
  match pdf_files with
  | [] => ret tt
  | pdf :: rest =>
      let file_path := Py.path_join docs_dir pdf in
      try_except (index_document file_path) (fun _ => ret tt) ;;
      index_each docs_dir rest
  end.

Definition test_question : string :=
  "Am I allowed to install solar panels?".

(** [reindex_documents()], run in a process of its own: the field
    [rag_service] of the state is its local [rag]. *)
Definition reindex_documents : M unit :=
  RAGService__init__ ;;
  let docs_dir := "documents" in
  names <- os_listdir docs_dir ;;
  let pdf_files := pdf_names names in
  index_each docs_dir pdf_files ;;
  try_except (query test_question ;; ret tt) (fun _ => ret tt).

End Reindex.

(** ** More vocabulary *)

(** A computation that reads: the service object, the files and the
    directories are as before. *)
Definition read_only (w w' : World) : Prop :=
  rag_service w' = rag_service w
  /\ files w' = files w
  /\ dirs w' = dirs w.

(** Outside the two files of the saved index, the files are as before. *)
Definition index_files_only (w w' : World) : Prop :=
  forall k,
    k <> index_faiss (rag_service w) -> k <> index_pkl (rag_service w) ->
    files w' !! k = files w !! k.

(** How the service object may change once it is built: its configuration
    stays, its store may only gain chunks, and it stays initialized. *)
Definition service_step (s s' : RAGService) : Prop :=
  llm s' = llm s
  /\ embeddings s' = embeddings s
  /\ persist_directory s' = persist_directory s
  /\ (exists extra, stored_docs s' = stored_docs s ++ extra)
  /\ (is_Some (vectorstore s) -> is_Some (vectorstore s'))
  /\ (is_initialized s = true -> is_initialized s' = true).

Definition service_steps (w w' : World) : Prop :=
  service_step (rag_service w) (rag_service w').

(** A [PyPDFLoader] call is one for [documents/<name>], where [name] is one
    of [names] and ends with [.pdf]. *)
Definition loads_pdf_of (names : list string) (e : Event) : Prop :=
  forall wh p,
    e = Called wh (PyPDFLoader_load p) ->
    exists name,
      name ∈ names
      /\ Py.endswith name ".pdf" = true
      /\ p = Py.path_join "documents" name.

(** With the index kept in [./faiss_index]: it stays there, and the files
    other than the two of the saved index are as before. *)
Definition outside_index (w w' : World) : Prop :=
  persist_directory (rag_service w) = "./faiss_index" ->
  persist_directory (rag_service w') = "./faiss_index"
  /\ forall k,
       k <> "faiss_index/index.faiss" -> k <> "faiss_index/index.pkl" ->
       files w' !! k = files w !! k.

(** A [PyPDFLoader] call is one for the path [file_path]. *)
Definition loads_only (file_path : string) (e : Event) : Prop :=
  forall wh p, e = Called wh (PyPDFLoader_load p) -> p = file_path.

(** What [/api/ask] answers for an outcome of the query that came in
    time. *)
Definition ask_outcome (o : Outcome QueryResult) : Outcome Body :=
  match o with
  | Returned r => Returned (Answer (answer r) (sources r))
  | Raised e => Raised (HTTPException 500 (str_exc e))
  | Cancelled => Cancelled
  | Hangs => Hangs
  end.

(** The three answers of [/api/test-llm] that report a problem or success. *)
Definition llm_not_initialized : Body :=
  LlmTest "error" "LLM not initialized" None.

Definition llm_timed_out : Body :=
  LlmTest "error"
    "LLM timed out. If using Ollama, make sure it's running: 'ollama serve'"
    None.

Definition llm_responding (response : string) : Body :=
  LlmTest "success" "LLM is responding" (Some response).

(** Every chunk has an integer page number and, if it has a source, a
    string one. *)
Definition well_paged (doc : Document) : Prop :=
  (exists z, metadata doc !! "page" = Some (MInt z))
  /\ (forall z, metadata doc !! "source" <> Some (MInt z)).

(** ** More states to run the model on *)

Module Fixtures.

Definition in_listing_order : Listing :=
  {| listdir_order := fun l => l;
     listdir_order_perm := fun l => reflexivity l |}.

(** The LLM provider is OpenAI and no key is set: the embeddings are
    configured, the LLM is not. *)
Definition w_no_llm : World :=
  (@RAGService__init__ Toy.quick
     (mk_World {["LLM_PROVIDER" := "openai"]} ∅ ∅ 0 0 None []
        Toy.blank_service)).2.


(** A regular file named [requests] sits where the directory should be. *)
Definition w_requests_blocked : World :=
  with_files {["requests" := CBytes []]} Toy.w_started.

(** A clock that stands still. *)
Definition frozen : Libraries :=
  {| latency := Toy.toy_latency (Some 5%N);
     clock := fun _ => Py.mk_datetime 2024 3 7 9 5 0 0;
     pdf_pages := Toy.toy_pdf_pages;
     split_text := fun _ _ s => [s];
     embed_documents := Toy.toy_embed;
     rank := fun _ docs _ => Ok docs;
     llm_reply := fun _ _ => Ok "Yes, with approval.";
     set_order := reverse;
     set_order_perm := @reverse_Permutation string |}.

Definition pool_request : ChangeRequest :=
  mk_ChangeRequest "Bo Lind" "bo@example.org" "14 Elm St" "pool"
    "Dig a pool" None.

(** A checkout after an upload, in a fresh process: the saved index and
    [documents/Bylaws.pdf] are on disk. *)
Definition w_disk : World :=
  mk_World ∅ (files Toy.w_indexed) (dirs Toy.w_indexed) 0 0 None []
    Toy.blank_service.

(** A retriever that finds a chunk without page number. *)
Definition unpaged : Document :=
  mk_Document "Pets are welcome." {["source" := MStr "notes.pdf"]}.

Definition w_unpaged : World :=
  with_rag
    (set_vectorstore
       (Some (mk_VectorStore [unpaged]
                (HuggingFaceEmbeddings
                   "sentence-transformers/all-MiniLM-L6-v2")))
       (rag_service Toy.w_indexed))
    Toy.w_indexed.

End Fixtures.

(** * Properties *)

(** ** The Python built-ins on examples *)

Example endswith_pdf : Py.endswith "Bylaws.pdf" ".pdf" = true.
Proof. reflexivity. Qed.

Example endswith_upper : Py.endswith "Bylaws.PDF" ".pdf" = false.
Proof. reflexivity. Qed.

Example endswith_short : Py.endswith "pdf" ".pdf" = false.
Proof. reflexivity. Qed.

Example basename_documents :
  Py.basename "documents/Bylaws.pdf" = "Bylaws.pdf".
Proof. reflexivity. Qed.

Example path_join_documents :
  Py.path_join "documents" "Bylaws.pdf" = "documents/Bylaws.pdf".
Proof. reflexivity. Qed.

Example path_join_absolute :
  Py.path_join "documents" "/tmp/x.pdf" = "/tmp/x.pdf".
Proof. reflexivity. Qed.

Example canonical_faiss :
  Py.canonical "./faiss_index/index.faiss" = "faiss_index/index.faiss".
Proof. reflexivity. Qed.

Example strftime_example :
  Py.strftime_compact (Py.mk_datetime 2024 3 7 9 5 0 0) = "20240307090500".
Proof. reflexivity. Qed.

Example isoformat_example :
  Py.isoformat (Py.mk_datetime 2024 3 7 9 5 0 1234)
  = "2024-03-07T09:05:00.001234".
Proof. reflexivity. Qed.

(** ** The model on examples *)

Example health_after_start :
  (@app Toy.quick GET "/api/health" NoPayload Toy.w_started).1
  = Some (mk_Response 200
            (Json (Health "healthy" false "ollama" "mistral" false))).
Proof. by vm_compute. Qed.

Example ask_after_upload :
  (@app Toy.quick POST "/api/ask" (JsonQuestion Toy.fence_question)
     Toy.w_indexed).1
  = Some (mk_Response 200
            (Json (Answer "Yes, with approval."
                     ["Bylaws.pdf (Page 2)"; "Bylaws.pdf (Page 1)"]))).
Proof. by vm_compute. Qed.

Example unknown_route :
  (@app Toy.quick GET "/api/nothing" NoPayload Toy.w_started).1
  = Some (mk_Response 404 (Detail "Not Found")).
Proof. by vm_compute. Qed.

Example unknown_provider :
  _get_llm {["LLM_PROVIDER" := "Claude"]}
  = Err (Exception "Unknown LLM provider: claude").
Proof. by vm_compute. Qed.

Example upload_of_a_text_file_named_pdf :
  (@app Toy.quick POST "/api/upload-bylaws"
     (FormFile (mk_UploadFile "notes.pdf" [Byte.x68; Byte.x69]))
     Toy.w_started).1
  = Some (mk_Response 500
            (Detail
               "Error processing document: Error indexing document: invalid pdf header")).
Proof. by vm_compute. Qed.

Example health_after_upload :
  (@app Toy.quick GET "/api/health" NoPayload Toy.w_indexed).1
  = Some (mk_Response 200
            (Json (Health "healthy" true "ollama" "mistral" true))).
Proof. by vm_compute. Qed.

(** ** Relating the state before and after a computation

    For a preorder [R], [steps R m] follows the structure of [m]. *)

Section Steps.
Context {L : Libraries}.
Variable R : World -> World -> Prop.
Context `{!PreOrder R}.

Lemma steps_ret {A} (a : A) : steps R (ret a).
Proof. intros w. reflexivity. Qed.

Lemma steps_raise {A} (e : Exc) : steps R (@raise A e).
Proof. intros w. reflexivity. Qed.

Lemma steps_lift {A} (r : result A) : steps R (lift r).
Proof. destruct r; [apply steps_ret | apply steps_raise]. Qed.

Lemma steps_get_world : steps R get_world.
Proof. intros w. reflexivity. Qed.

Lemma steps_get_self : steps R get_self.
Proof. intros w. reflexivity. Qed.

Lemma steps_bind {A B} (m : M A) (k : A -> M B) :
  steps R m -> (forall a, steps R (k a)) -> steps R (bind m k).
Proof.
  intros Hm Hk w. unfold bind. specialize (Hm w).
  destruct (m w) as [[a| | |] w1]; simpl in *; try done.
  etrans; [exact Hm | apply Hk].
Qed.

Lemma steps_try_except {A} (m : M A) (h : Exc -> M A) :
  steps R m -> (forall e, steps R (h e)) -> steps R (try_except m h).
Proof.
  intros Hm Hh w. unfold try_except. specialize (Hm w).
  destruct (m w) as [[a| e | |] w1]; simpl in *; try done.
  etrans; [exact Hm | apply Hh].
Qed.

Lemma steps_modify (f : World -> World) :
  (forall w, R w (f w)) -> steps R (modify f).
Proof. intros Hf w. apply Hf. Qed.

Lemma steps_lib_call (wh : Where) (c : Call) :
  (forall w, R w (with_trace (trace w ++ [Called wh c]) w)) ->
  (forall w t, R w (with_elapsed t w)) ->
  steps R (lib_call wh c).
Proof.
  intros Ht He w. unfold lib_call.
  destruct (latency c); simpl; [|apply Ht].
  etrans; [apply Ht | apply He].
Qed.

Lemma steps_run_in_executor {A} (pool : Pool) (body : Where -> M A) :
  (forall w t, R w (with_elapsed t w)) ->
  steps R (body (OnExecutor pool)) ->
  steps R (run_in_executor pool body).
Proof.
  intros He Hb w. unfold run_in_executor. specialize (Hb w).
  destruct (body (OnExecutor pool) w) as [o w1]; simpl in *.
  destruct (deadline w); [|done].
  match goal with |- context [if ?b then _ else _] => destruct b end;
    simpl; [|done].
  etrans; [exact Hb | apply He].
Qed.

Lemma steps_wait_for {A} (m : M A) (ms : N) :
  (forall w, R w (with_trace (trace w ++ [WaitFor ms]) w)) ->
  (forall w d, R w (with_deadline d w)) ->
  steps R m -> steps R (wait_for m ms).
Proof.
  intros Ht Hd Hm w. unfold wait_for.
  match goal with
  | |- context [m ?w0] =>
      specialize (Hm w0); destruct (m w0) as [o w1]
  end.
  simpl in Hm.
  assert (R w (with_deadline (deadline w) w1)) as HR.
  { etrans; [apply Ht|]. etrans; [apply Hd|]. etrans; [exact Hm | apply Hd]. }
  destruct o; exact HR.
Qed.

Lemma steps_datetime_now :
  (forall w n, R w (with_ticks n w)) -> steps R datetime_now.
Proof. intros Hn w. apply Hn. Qed.

Lemma steps_os_makedirs (p : string) :
  (forall w d, R w (with_dirs d w)) -> steps R (os_makedirs p).
Proof.
  intros Hd w. unfold os_makedirs.
  destruct (bool_decide _); [reflexivity|].
  destruct (files w !! _); simpl; [reflexivity | apply Hd].
Qed.

Lemma steps_write_file (p : string) (c : Content) :
  (forall w f, R w (with_files f w)) -> steps R (write_file p c).
Proof.
  intros Hf w. unfold write_file.
  destruct (bool_decide _); [reflexivity|].
  match goal with |- context [if ?b then _ else _] => destruct b end;
    simpl; [apply Hf | reflexivity].
Qed.

End Steps.

(** ** Weakest preconditions along the structure of a program *)

Section Wp.
Context {L : Libraries}.

Lemma wp_run {A} (m : M A) (Q : Outcome A -> World -> Prop) w o w' :
  m w = (o, w') -> wp m Q w -> Q o w'.
Proof. unfold wp. intros ->. done. Qed.

Lemma wp_mono {A} (m : M A) (Q1 Q2 : Outcome A -> World -> Prop) w :
  wp m Q1 w -> (forall o w', Q1 o w' -> Q2 o w') -> wp m Q2 w.
Proof. unfold wp. intros H HQ. apply HQ, H. Qed.

Lemma wp_ret {A} (a : A) Q w : Q (Returned a) w -> wp (ret a) Q w.
Proof. done. Qed.

Lemma wp_raise {A} (e : Exc) (Q : Outcome A -> World -> Prop) w :
  Q (Raised e) w -> wp (raise e) Q w.
Proof. done. Qed.

Lemma wp_lift {A} (r : result A) (Q : Outcome A -> World -> Prop) w :
  match r with
  | Ok a => Q (Returned a) w
  | Err e => Q (Raised e) w
  end -> wp (lift r) Q w.
Proof. by destruct r. Qed.

Lemma wp_bind {A B} (m : M A) (k : A -> M B) Q w :
  wp m (then_wp k Q) w -> wp (bind m k) Q w.
Proof.
  unfold wp, then_wp, bind. by destruct (m w) as [[a|e| |] w1].
Qed.

Lemma wp_try_except {A} (m : M A) (h : Exc -> M A) Q w :
  wp m (except_wp h Q) w -> wp (try_except m h) Q w.
Proof.
  unfold wp, except_wp, try_except. by destruct (m w) as [[a|e| |] w1].
Qed.

Lemma wp_get_world Q w : Q (Returned w) w -> wp get_world Q w.
Proof. done. Qed.

Lemma wp_get_self Q w :
  Q (Returned (rag_service w)) w -> wp get_self Q w.
Proof. done. Qed.

Lemma wp_modify (f : World -> World) Q w :
  Q (Returned tt) (f w) -> wp (modify f) Q w.
Proof. done. Qed.

Lemma wp_update_self (f : RAGService -> RAGService) Q w :
  Q (Returned tt) (with_rag (f (rag_service w)) w) ->
  wp (update_self f) Q w.
Proof. done. Qed.

Lemma wp_lib_call (wh : Where) (c : Call) Q w :
  match latency c with
  | None => Q Hangs (with_trace (trace w ++ [Called wh c]) w)
  | Some d =>
      Q (Returned tt)
        (with_elapsed (elapsed w + d)
           (with_trace (trace w ++ [Called wh c]) w))
  end -> wp (lib_call wh c) Q w.
Proof. unfold wp, lib_call. by destruct (latency c). Qed.

Lemma wp_datetime_now Q w :
  Q (Returned (clock (ticks w))) (with_ticks (S (ticks w)) w) ->
  wp datetime_now Q w.
Proof. done. Qed.

Lemma wp_os_makedirs (p : string) Q w :
  (Py.canonical p ∈ dirs w -> Q (Returned tt) w) ->
  (forall c, Py.canonical p ∉ dirs w -> files w !! Py.canonical p = Some c ->
     Q (Raised (os_error "17" "File exists" p)) w) ->
  (Py.canonical p ∉ dirs w -> files w !! Py.canonical p = None ->
     Q (Returned tt) (with_dirs ({[Py.canonical p]} ∪ dirs w) w)) ->
  wp (os_makedirs p) Q w.
Proof.
  intros Hdir Hfile Hnew. unfold wp, os_makedirs. case_bool_decide.
  - by apply Hdir.
  - destruct (files w !! _) eqn:Hf; simpl; eauto.
Qed.

Lemma wp_write_file (p : string) (c : Content) Q w :
  (Py.canonical p ∈ dirs w ->
     Q (Raised (os_error "21" "Is a directory" p)) w) ->
  (Py.canonical p ∉ dirs w -> parent_ok p w = false ->
     Q (Raised (os_error "2" "No such file or directory" p)) w) ->
  (Py.canonical p ∉ dirs w -> parent_ok p w = true ->
     Q (Returned tt) (with_files (<[Py.canonical p := c]> (files w)) w)) ->
  wp (write_file p c) Q w.
Proof.
  intros Hdir Hparent Hok. unfold wp, write_file. case_bool_decide.
  - by apply Hdir.
  - destruct (parent_ok p w) eqn:Hp; simpl; eauto.
Qed.

Lemma wp_run_in_executor {A} (pool : Pool) (body : Where -> M A) Q w :
  wp (body (OnExecutor pool)) (executor_wp w Q) w ->
  wp (run_in_executor pool body) Q w.
Proof.
  unfold wp, executor_wp, run_in_executor.
  destruct (body (OnExecutor pool) w) as [o w1]. simpl.
  destruct (deadline w); [|done].
  by destruct (match o with Hangs => true | _ => _ end).
Qed.

Lemma wp_wait_for {A} (m : M A) (ms : N) Q w :
  wp m (wait_for_wp (deadline w) Q)
    (with_deadline (Some (elapsed w + ms)%N)
       (with_trace (trace w ++ [WaitFor ms]) w)) ->
  wp (wait_for m ms) Q w.
Proof.
  unfold wp, wait_for_wp, wait_for.
  destruct (m _) as [o w1]. simpl. by destruct o.
Qed.

End Wp.

Global Arguments wp : simpl never.

(** Reduces the projections of updated states and the glue between the
    steps of a program. *)
Ltac wsimpl :=
  cbn [then_wp except_wp wait_for_wp
       environ files dirs ticks elapsed deadline trace rag_service
       with_files with_dirs with_ticks with_elapsed with_deadline with_trace
       with_rag
       embeddings vectorstore qa_chain llm persist_directory retriever
       set_embeddings set_vectorstore set_qa_chain set_llm set_retriever
       fst snd].

(** Case analysis on [x], unless the context already tells what it is. *)
Ltac case_on x :=
  first
    [ match goal with H : x = _ |- _ => rewrite H end
    | destruct x eqn:? ].

(** One step of symbolic execution. *)
Ltac wp_step :=
  lazymatch goal with
  | |- wp (bind _ _) _ _ => apply wp_bind
  | |- wp (ret _) _ _ => apply wp_ret
  | |- wp (raise _) _ _ => apply wp_raise
  | |- wp (lift ?r) _ _ => apply wp_lift; case_on r
  | |- wp (try_except _ _) _ _ => apply wp_try_except
  | |- wp get_world _ _ => apply wp_get_world
  | |- wp get_self _ _ => apply wp_get_self
  | |- wp (update_self _) _ _ => apply wp_update_self
  | |- wp (modify _) _ _ => apply wp_modify
  | |- wp datetime_now _ _ => apply wp_datetime_now
  | |- wp (lib_call _ ?c) _ _ => apply wp_lib_call; case_on (latency c)
  | |- wp (os_makedirs _) _ _ =>
      apply wp_os_makedirs; [intros ?|intros ? ? ?|intros ? ?]
  | |- wp (write_file _ _) _ _ =>
      apply wp_write_file; [intros ?|intros ? ?|intros ? ?]
  | |- wp (run_in_executor _ _) _ _ => apply wp_run_in_executor
  | |- wp (wait_for _ _) _ _ => apply wp_wait_for
  | |- wp (match ?x with _ => _ end) _ _ => case_on x
  | |- executor_wp _ _ _ _ => unfold executor_wp; wsimpl
  | |- match ?x with _ => _ end => case_on x
  | |- if ?x then _ else _ => case_on x
  end; wsimpl.

Ltac wp_go := repeat wp_step.

(** ** The two relations used below are preorders *)

Global Instance keeps_preorder (I : RAGService -> Prop) : PreOrder (keeps I).
Proof.
  split.
  - intros w H. exact H.
  - intros w1 w2 w3 H12 H23 H. apply H23, H12, H.
Qed.

Global Instance emits_preorder (P : Event -> Prop) : PreOrder (emits P).
Proof.
  split.
  - intros w. exists []. split; [by rewrite app_nil_r | constructor].
  - intros w1 w2 w3 (e1 & H1 & F1) (e2 & H2 & F2).
    exists (e1 ++ e2). split.
    + by rewrite H2, H1, app_assoc.
    + by apply Forall_app.
Qed.

(** Walks through a program built from the combinators of the monad;
    [close] proves the side conditions on [R], [known] the parts of the
    program that have a lemma of their own. *)
Ltac steps_walk close known :=
  repeat first
    [ match goal with |- PreOrder _ => apply _ end
    | solve [close]
    | solve [known]
    | apply steps_ret
    | apply steps_raise
    | apply steps_lift
    | apply steps_get_world
    | apply steps_get_self
    | apply steps_bind
    | apply steps_try_except
    | apply steps_run_in_executor
    | apply steps_wait_for
    | apply steps_lib_call
    | apply steps_datetime_now
    | apply steps_os_makedirs
    | apply steps_write_file
    | match goal with |- forall _, steps _ _ => intros ? end
    | match goal with
      | |- steps _ (match ?x with _ => _ end) => destruct x
      end ].

(** ** The invariant of the service object *)

Section Invariant.
Context {L : Libraries}.

Ltac same_service := intros; intros ?; assumption.

Lemma keeps_update_self (I : RAGService -> Prop) (f : RAGService -> RAGService) :
  (forall s, I s -> I (f s)) -> steps (keeps I) (update_self f).
Proof. intros Hf w H. apply Hf, H. Qed.

Lemma service_inv_set_embeddings e s :
  service_inv s -> service_inv (set_embeddings e s).
Proof. intros H. exact H. Qed.

Lemma service_inv_add_docs v s :
  service_inv s -> service_inv (set_vectorstore (Some v) s).
Proof.
  intros (Hp & Hc & Hr). split; [exact Hp|]. split; [|exact Hr].
  intros c Hq. destruct (Hc c Hq) as (? & ? & ? & ?). simpl. eauto.
Qed.

Lemma service_inv_fresh :
  service_inv (mk_RAGService None None None None "./faiss_index" None).
Proof. repeat split; simpl; intros; discriminate. Qed.

Lemma keeps_initialize_qa_chain :
  steps (keeps service_inv) _initialize_qa_chain.
Proof.
  intros w H. unfold _initialize_qa_chain, bind, get_self. simpl.
  destruct (llm (rag_service w)) as [l|] eqn:El; [|exact H].
  destruct (vectorstore (rag_service w)) as [v|] eqn:Ev; [|exact H].
  destruct H as (Hp & _ & _).
  split; [exact Hp|]. split; simpl.
  - intros c [= <-]. simpl. eauto.
  - intros r [= <-]. reflexivity.
Qed.

(** The constructor establishes the invariant, whatever the state it
    starts from. *)
Lemma init_service_inv (w : World) :
  wp RAGService__init__ (fun _ w' => service_inv (rag_service w')) w.
Proof.
  unfold RAGService__init__, _initialize, _initialize_qa_chain, FAISS_load.
  wp_go.
  all: unfold service_inv; simpl; repeat split; intros; simplify_eq/=;
    eauto.
Qed.

Ltac inv_known :=
  first
    [ apply keeps_initialize_qa_chain
    | apply keeps_update_self; intros ? ?;
      first [assumption | by apply service_inv_add_docs] ].

Lemma keeps_index_document (file_path : string) :
  steps (keeps service_inv) (index_document file_path).
Proof.
  unfold index_document, FAISS_add, FAISS_from, FAISS_save, PyPDFLoader,
    RecursiveCharacterTextSplitter.
  steps_walk same_service inv_known.
Qed.

Lemma keeps_query (q : string) : steps (keeps service_inv) (query q).
Proof.
  unfold query, chain_invoke, retriever_get.
  steps_walk same_service inv_known.
Qed.

Lemma keeps_handler (h : Handler) (p : Payload) (run : M Body) :
  run_handler h p = Some run -> steps (keeps service_inv) run.
Proof.
  intros Hrun. destruct h, p; simplify_eq/=.
  all: unfold read_root, health_check, test_llm, ask_question,
         upload_bylaws, submit_change_request.
  all: steps_walk same_service
         ltac:(first [apply keeps_query | apply keeps_index_document]).
Qed.

Lemma keeps_app (m : Method) (path : string) (p : Payload) (w : World) :
  keeps service_inv w (app m path p w).2.
Proof.
  unfold app. destruct (find_route m path) as [h|]; [|by intros ?].
  destruct (run_handler h p) as [run|] eqn:Hrun; [|by intros ?].
  pose proof (keeps_handler h p run Hrun w) as Hsteps.
  by destruct (run w).
Qed.

Lemma reachable_service_inv (w : World) :
  reachable w -> service_inv (rag_service w).
Proof.
  induction 1 as [w0|w m path p _ IH].
  - apply init_service_inv.
  - by apply keeps_app.
Qed.

End Invariant.

(** ** The routes of the façade (C1) *)

Section Routes.





End Routes.

(** ** Asking before anything is indexed (C9) *)

Section Uninitialized.
Context {L : Libraries}.

(** C9: while no QA chain exists, [query] raises instead of returning an
    answer (and calls no library), and [/api/ask] turns that failure into
    HTTP 500 with the message of the exception as its detail. *)
Theorem ask_before_indexing (q : string) (w : World) :
  qa_chain (rag_service w) = None ->
  query q w = (Raised (Exception not_initialized_message), w)
  /\ (ask_question (mk_Question q) w).1
     = Raised (HTTPException 500 not_initialized_message)
  /\ (app POST "/api/ask" (JsonQuestion (mk_Question q)) w).1
     = Some (mk_Response 500 (Detail not_initialized_message)).
Proof.
  intros Hnone.
  assert (query q w = (Raised (Exception not_initialized_message), w))
    as Hq.
  { unfold query, bind, get_self. simpl. by rewrite Hnone. }
  assert (forall w0, rag_service w0 = rag_service w ->
            (query q w0).1 = Raised (Exception not_initialized_message))
    as Hq0.
  { intros w0 Hw0. unfold query, bind, get_self. simpl.
    by rewrite Hw0, Hnone. }
  assert ((ask_question (mk_Question q) w).1
          = Raised (HTTPException 500 not_initialized_message)) as Hask.
  { unfold ask_question, try_except, bind, wait_for. simpl.
    match goal with
    | |- context [query q ?w0] =>
        specialize (Hq0 w0 eq_refl); destruct (query q w0) as [o w1]
    end.
    simpl in Hq0. by subst o. }
  split; [exact Hq|]. split; [exact Hask|].
  unfold app. simpl. destruct (ask_question _ w) as [o w1].
  simpl in *. by subst o.
Qed.

End Uninitialized.

Lemma ask_before_indexing_witness :
  @query Toy.quick "May I build a fence?" Toy.w_started
  = (Raised (Exception not_initialized_message), Toy.w_started)
  /\ (@ask_question Toy.quick (mk_Question "May I build a fence?")
        Toy.w_started).1
     = Raised (HTTPException 500 not_initialized_message)
  /\ (@app Toy.quick POST "/api/ask"
        (JsonQuestion (mk_Question "May I build a fence?")) Toy.w_started).1
     = Some (mk_Response 500 (Detail not_initialized_message)).
Proof.
  apply (@ask_before_indexing Toy.quick). vm_compute. reflexivity.
Defined.

(** ** [is_initialized] (C8) *)

Section Initialized.
Context {L : Libraries}.

Lemma service_inv_chain_has_parts (s : RAGService) :
  service_inv s -> chain_has_parts s.
Proof.
  intros (_ & Hc & _) Hinit. unfold is_initialized in Hinit.
  destruct (qa_chain s) as [c|] eqn:Hq; [|done].
  destruct (Hc c eq_refl) as (_ & Hl & Hv & _). rewrite Hl. eauto.
Qed.

Lemma chain_has_parts_store (v : VectorStore) (s : RAGService) :
  chain_has_parts s -> chain_has_parts (set_vectorstore (Some v) s).
Proof. intros H Hinit. destruct (H Hinit) as [Hl _]. eauto. Qed.

Lemma parts_initialize_qa_chain :
  steps (keeps chain_has_parts) _initialize_qa_chain.
Proof.
  intros w H. unfold _initialize_qa_chain, bind, get_self. simpl.
  destruct (llm (rag_service w)) as [l|] eqn:El; [|exact H].
  destruct (vectorstore (rag_service w)) as [v|] eqn:Ev; [|exact H].
  intros _. simpl. rewrite El, Ev. eauto.
Qed.

Ltac parts_known :=
  first
    [ apply parts_initialize_qa_chain
    | apply keeps_update_self; intros ? ?;
      first [assumption | by apply chain_has_parts_store] ].

Ltac same_service := intros; intros ?; assumption.

Lemma parts_index_document (file_path : string) :
  steps (keeps chain_has_parts) (index_document file_path).
Proof.
  unfold index_document, FAISS_add, FAISS_from, FAISS_save, PyPDFLoader,
    RecursiveCharacterTextSplitter.
  steps_walk same_service parts_known.
Qed.

Lemma parts_query (q : string) : steps (keeps chain_has_parts) (query q).
Proof.
  unfold query, chain_invoke, retriever_get.
  steps_walk same_service parts_known.
Qed.

(** C8: whenever [is_initialized()] is true the LLM and the vector store
    are both set.  The constructor establishes this, [index_document] and
    [query] preserve it, and so it holds in every state the server can
    reach: the QA chain is only ever built when both exist. *)
Theorem initialized_has_llm_and_store :
  (forall w0, chain_has_parts (rag_service (RAGService__init__ w0).2))
  /\ (forall file_path w,
        chain_has_parts (rag_service w) ->
        chain_has_parts (rag_service (index_document file_path w).2))
  /\ (forall q w,
        chain_has_parts (rag_service w) ->
        chain_has_parts (rag_service (query q w).2))
  /\ (forall w,
        reachable w ->
        is_initialized (rag_service w) = true ->
        is_Some (llm (rag_service w))
        /\ is_Some (vectorstore (rag_service w))).
Proof.
  split; [|split; [|split]].
  - intros w0. apply service_inv_chain_has_parts, init_service_inv.
  - intros file_path w. apply parts_index_document.
  - intros q w. apply parts_query.
  - intros w Hreach. by apply service_inv_chain_has_parts,
      reachable_service_inv.
Qed.

End Initialized.

Lemma initialized_has_llm_and_store_witness :
  is_Some (llm (rag_service Toy.w_indexed))
  /\ is_Some (vectorstore (rag_service Toy.w_indexed)).
Proof.
  destruct (@initialized_has_llm_and_store Toy.quick) as (_ & _ & _ & H).
  apply H.
  - apply reach_request, reach_start.
  - vm_compute. reflexivity.
Defined.

(** ** Change requests (C3) *)

Section SubmitRequest.
Context {L : Libraries}.

Lemma canonical_plain (c : ascii) (s : string) :
  c <> "."%char -> Py.canonical (String c s) = String c s.
Proof.
  intros Hc. unfold Py.canonical. simpl.
  destruct c as [[] [] [] [] [] [] [] []]; try reflexivity.
  all: destruct s as [|[[] [] [] [] [] [] [] []] s']; try reflexivity.
  all: by destruct Hc.
Qed.

Lemma canonical_app_plain (c : ascii) (p s : string) :
  c <> "."%char -> Py.canonical (String c p +:+ s) = String c p +:+ s.
Proof. intros Hc. by apply (canonical_plain c (p +:+ s)). Qed.

Lemma submit_spec (request : ChangeRequest) (w : World) :
  let request_id := "REQ-" +:+ Py.strftime_compact (clock (ticks w)) in
  let submitted_at := Py.isoformat (clock (S (ticks w))) in
  let data := request_record request request_id submitted_at in
  wp (submit_change_request request)
    (fun o w' =>
       forall b, o = Returned b ->
         files w'
         = <["requests/" +:+ request_id +:+ ".json" := CJson data]>
             (files w)
         /\ b = ChangeRequestResponse request_id "submitted" submitted_at)
    w.
Proof.
  intros request_id submitted_at data.
  unfold submit_change_request. wp_go.
  all: intros b Hb; try discriminate.
  all: match goal with
       | H : dict_get _ _ = _ |- _ => simpl in H; injection H as <-
       end.
  all: injection Hb as <-; split; [|reflexivity].
  all: subst data request_id submitted_at; unfold request_record.
  all: by rewrite canonical_app_plain.
Qed.

(** C3: a call of [/api/submit-request] that succeeds has written exactly
    one file, [requests/<request_id>.json], holding every submitted field
    together with the status [submitted] and the timestamp; all other
    files are as before; and the response carries the [request_id],
    [status] and [submitted_at] that are in the file. *)
Theorem submit_writes_one_file (request : ChangeRequest) (w w' : World)
    (b : Body) :
  submit_change_request request w = (Returned b, w') ->
  let request_id := "REQ-" +:+ Py.strftime_compact (clock (ticks w)) in
  let submitted_at := Py.isoformat (clock (S (ticks w))) in
  let data := request_record request request_id submitted_at in
  files w'
  = <["requests/" +:+ request_id +:+ ".json" := CJson data]> (files w)
  /\ b = ChangeRequestResponse request_id "submitted" submitted_at
  /\ dict_get data "request_id" = Some (JStr request_id)
  /\ dict_get data "status" = Some (JStr "submitted")
  /\ dict_get data "submitted_at" = Some (JStr submitted_at).
Proof.
  intros Hrun. simpl.
  pose proof (submit_spec request w) as Hspec. cbv zeta in Hspec.
  pose proof (wp_run _ _ _ _ _ Hrun Hspec) as Hpost. simpl in Hpost.
  destruct (Hpost b eq_refl) as [Hfiles Hbody].
  by repeat split.
Qed.

End SubmitRequest.

Lemma submit_writes_one_file_witness :
  files (@app Toy.quick POST "/api/submit-request"
           (JsonChangeRequest Toy.fence_request) Toy.w_indexed).2
  !! "requests/REQ-20240307090500.json"
  = Some (CJson (request_record Toy.fence_request "REQ-20240307090500"
                   "2024-03-07T09:05:01.001234")).
Proof.
  destruct (@submit_writes_one_file Toy.quick Toy.fence_request Toy.w_indexed
              (@submit_change_request Toy.quick Toy.fence_request
                 Toy.w_indexed).2
              (ChangeRequestResponse "REQ-20240307090500" "submitted"
                 "2024-03-07T09:05:01.001234"))
    as (Hfiles & _).
  - vm_compute. reflexivity.
  - change (@app Toy.quick POST "/api/submit-request"
              (JsonChangeRequest Toy.fence_request) Toy.w_indexed).2
      with (@submit_change_request Toy.quick Toy.fence_request
              Toy.w_indexed).2.
    rewrite Hfiles. apply lookup_insert_eq.
Defined.

(** ** What a successful [index_document] has done *)

Section Indexing.
Context {L : Libraries}.

Lemma index_document_spec (file_path : string) (w : World) :
  wp (index_document file_path)
    (fun o w' =>
       o = Returned tt ->
       exists (b : list Byte.byte) (pages : list string) (vs' : VectorStore),
         files w !! Py.canonical file_path = Some (CBytes b)
         /\ pdf_pages b = Ok pages
         /\ vectorstore (rag_service w') = Some vs'
         /\ vs_docs vs'
            = stored_docs (rag_service w) ++ chunks_of file_path pages
         /\ trace w'
            = trace w ++
              [ Called OnLoop (PyPDFLoader_load file_path);
                Called OnLoop (split_documents 1000 200);
                Called OnLoop (embed_call (rag_service w));
                Called OnLoop
                  (FAISS_save_local (persist_directory (rag_service w))) ]
         /\ files w'
            = <[index_pkl (rag_service w) := CPickle (vs_docs vs')]>
                (<[index_faiss (rag_service w)
                   := CFaissIndex (length (vs_docs vs'))]> (files w)))
    w.
Proof.
  unfold index_document, PyPDFLoader, RecursiveCharacterTextSplitter,
    FAISS_add, FAISS_from, FAISS_save, _initialize_qa_chain.
  wp_go.
  all: try (intros ?; discriminate).
  all: intros _; eexists _, _, _.
  all: unfold stored_docs, embed_call, chunks_of, index_pkl, index_faiss.
  all: repeat match goal with
              | H : vectorstore _ = _ |- _ => rewrite H
              end.
  all: wsimpl; rewrite <- ?app_assoc; split_and!; try done.
Qed.

End Indexing.

(** ** What a successful chain invocation and a successful [query] have
    done *)

Section Querying.
Context {L : Libraries}.

Lemma chain_invoke_spec (wh : Where) (c : Chain) (q : string) (w : World) :
  wp (chain_invoke wh c q)
    (fun o w' =>
       rag_service w' = rag_service w
       /\ files w' = files w
       /\ deadline w' = deadline w
       /\ forall reply,
            o = Returned reply ->
            exists docs,
              retrieved (rag_service w) (chain_retriever c) q docs
              /\ llm_reply (chain_llm c)
                   (prompt_template (format_docs docs) q) = Ok reply
              /\ trace w' = trace w ++ chain_calls wh c q docs)
    w.
Proof.
  unfold chain_invoke, retriever_get. wp_go.
  all: split_and!; try done.
  all: intros reply Hreply; try discriminate.
  injection Hreply as <-. eexists. split_and!.
  - eexists _, _. split_and!; [eassumption|eassumption|reflexivity].
  - eassumption.
  - unfold chain_calls. by rewrite <- !app_assoc.
Qed.

Lemma query_spec (q : string) (w : World) :
  wp (query q)
    (fun o w' =>
       rag_service w' = rag_service w
       /\ files w' = files w
       /\ deadline w' = deadline w
       /\ forall r,
            o = Returned r ->
            exists chain rt docs1 docs2 entries,
              qa_chain (rag_service w) = Some chain
              /\ retriever (rag_service w) = Some rt
              /\ retrieved (rag_service w) (chain_retriever chain) q docs1
              /\ llm_reply (chain_llm chain)
                   (prompt_template (format_docs docs1) q) = Ok (answer r)
              /\ retrieved (rag_service w) rt q docs2
              /\ source_entries docs2 = Ok entries
              /\ sources r = list_set entries
              /\ trace w'
                 = trace w
                   ++ chain_calls (OnExecutor ServiceExecutor) chain q docs1
                   ++ [ Called (OnExecutor ServiceExecutor)
                          (retriever_invoke (search_k rt) q) ])
    w.
Proof.
  unfold query, chain_invoke, retriever_get. wp_go.
  all: split_and!; try done.
  all: intros res Hres; try discriminate.
  all: injection Hres as <-.
  all: eexists _, _, _, _, _; split_and!; try eassumption; try reflexivity.
  all: simplify_eq.
  all: try (unfold retrieved; by eauto 10).
  all: unfold chain_calls; by rewrite <- !app_assoc.
Qed.

End Querying.

(** ** The sources of an answer (C10) *)

Section Sources.
Context {L : Libraries}.

Lemma source_entry_format (doc : Document) (s : string) :
  source_entry doc = Ok s ->
  exists src page,
    default (MStr "Unknown") (metadata doc !! "source") = MStr src
    /\ metadata doc !! "page" = Some (MInt page)
    /\ s = entry_text src page.
Proof.
  unfold source_entry, entry_text.
  destruct (default _ (metadata doc !! "source")) as [src|]; [|done].
  destruct (metadata doc !! "page") as [[|z]|]; simpl; try done.
  intros [= <-]. eauto.
Qed.

Lemma source_entries_each (docs : list Document) (l : list string) :
  source_entries docs = Ok l ->
  length l = length docs
  /\ forall s, s ∈ l -> exists doc, doc ∈ docs /\ source_entry doc = Ok s.
Proof.
  revert l. induction docs as [|doc docs IH]; intros l; simpl.
  - intros [= <-]. split; [done|]. by intros s ?%elem_of_nil.
  - destruct (source_entry doc) as [s0|] eqn:Hdoc; [|done].
    destruct (source_entries docs) as [l0|]; [|done].
    intros [= <-]. destruct (IH l0 eq_refl) as [Hlen Heach].
    split; [simpl; by rewrite Hlen|].
    intros s [->|Hin]%elem_of_cons.
    + exists doc. split; [left|done].
    + destruct (Heach s Hin) as (d & Hd & Hs). exists d.
      split; [by right|done].
Qed.

Lemma list_set_NoDup (l : list string) : NoDup (list_set l).
Proof.
  unfold list_set. rewrite set_order_perm. apply NoDup_remove_dups.
Qed.

Lemma list_set_elem_of (l : list string) (s : string) :
  s ∈ list_set l <-> s ∈ l.
Proof.
  unfold list_set. by rewrite set_order_perm, elem_of_remove_dups.
Qed.

Lemma remove_dups_length (l : list string) :
  length (remove_dups l) <= length l.
Proof.
  induction l as [|x l IH]; simpl; [done|].
  destruct (decide_rel _ _ _); simpl; lia.
Qed.

Lemma list_set_length (l : list string) : length (list_set l) <= length l.
Proof.
  unfold list_set. rewrite set_order_perm. apply remove_dups_length.
Qed.

(** A chunk made by the loader and the splitter carries the path of the
    file and the index of its page, counted from 0. *)
Lemma chunk_entry (file_path : string) (pages : list string)
    (chunk : Document) :
  chunk ∈ chunks_of file_path pages ->
  exists i : nat,
    i < length pages
    /\ source_entry chunk = Ok (entry_text file_path (Z.of_nat i)).
Proof.
  unfold chunks_of. intros Hin.
  apply list_elem_of_In, in_concat in Hin as (l & Hl & Hin).
  apply list_elem_of_In, list_elem_of_fmap in Hl as (doc & -> & Hdoc).
  apply elem_of_lookup_imap in Hdoc as (i & text & -> & Hi).
  apply list_elem_of_In in Hin. unfold split_document in Hin.
  apply list_elem_of_fmap in Hin as (t & -> & _).
  exists i. split; [by eapply lookup_lt_Some|].
  unfold source_entry, page_document. simpl.
  rewrite lookup_insert_eq. simpl.
  rewrite lookup_insert_ne, lookup_insert_eq by done. done.
Qed.

(** C10: the sources of a successful [query] have no duplicates, are at
    most 2 (the retriever is built with [k = 2]), and each is the base
    name of the source of a retrieved chunk followed by its stored page
    number plus one; for the chunks [index_document] makes, the stored
    page number is the 0-based index of the page, so the number shown is
    1-based. *)
Theorem query_sources (q : string) (w w' : World) (r : QueryResult) :
  reachable w ->
  query q w = (Returned r, w') ->
  NoDup (sources r)
  /\ length (sources r) <= 2
  /\ (forall s, s ∈ sources r ->
        exists docs doc src page,
          retrieved (rag_service w) (mk_Retriever 2) q docs
          /\ doc ∈ docs
          /\ default (MStr "Unknown") (metadata doc !! "source") = MStr src
          /\ metadata doc !! "page" = Some (MInt page)
          /\ s = Py.basename src +:+ " (Page " +:+ pretty (page + 1)%Z
                 +:+ ")")
  /\ (forall file_path pages chunk,
        chunk ∈ chunks_of file_path pages ->
        exists i : nat,
          i < length pages
          /\ source_entry chunk
             = Ok (Py.basename file_path +:+ " (Page "
                   +:+ pretty (Z.of_nat i + 1)%Z +:+ ")")).
Proof.
  intros Hreach Hrun.
  pose proof (wp_run _ _ _ _ _ Hrun (query_spec q w)) as Hpost.
  simpl in Hpost. destruct Hpost as (_ & _ & _ & Hpost).
  destruct (Hpost r eq_refl)
    as (chain & rt & docs1 & docs2 & entries
        & Hchain & Hrt & _ & _ & Hdocs2 & Hentries & Hsources & _).
  destruct (reachable_service_inv w Hreach) as (_ & _ & Hk).
  assert (rt = mk_Retriever 2) as ->.
  { specialize (Hk rt Hrt). by destruct rt as [k]; simpl in *; subst. }
  destruct (source_entries_each _ _ Hentries) as [Hlen Heach].
  rewrite Hsources. split_and!.
  - apply list_set_NoDup.
  - etrans; [apply list_set_length|]. rewrite Hlen.
    destruct Hdocs2 as (vs & ranked & _ & _ & ->).
    rewrite length_take. apply Nat.le_min_l.
  - intros s Hs. apply (proj1 (list_set_elem_of entries s)) in Hs.
    destruct (Heach s Hs) as (doc & Hdoc & Hentry).
    destruct (source_entry_format doc s Hentry) as (src & page & ? & ? & ?).
    exists docs2, doc, src, page. by split_and!.
  - apply chunk_entry.
Qed.

End Sources.

Lemma query_sources_witness :
  NoDup ["Bylaws.pdf (Page 2)"; "Bylaws.pdf (Page 1)"]
  /\ length ["Bylaws.pdf (Page 2)"; "Bylaws.pdf (Page 1)"] <= 2.
Proof.
  destruct (@query_sources Toy.quick "May I build a fence?" Toy.w_indexed
              (@query Toy.quick "May I build a fence?" Toy.w_indexed).2
              (mk_QueryResult "Yes, with approval."
                 ["Bylaws.pdf (Page 2)"; "Bylaws.pdf (Page 1)"]))
    as (Hnodup & Hlen & _).
  - apply reach_request, reach_start.
  - vm_compute. reflexivity.
  - split; [exact Hnodup | exact Hlen].
Defined.

(** ** The order of the pipeline (C5) *)

Section Pipeline.
Context {L : Libraries}.

(** C5: a successful [index_document] has loaded the PDF, then split its
    pages into chunks with chunk size 1000 and overlap 200, then embedded
    the chunks into the vector index (which now holds them after the ones
    it had), in that order; a successful run of the QA chain has called
    the retriever, then the prompt template, then the LLM on the prompt
    built from the retrieved chunks, in that order, and [query] starts
    with such a run. *)
Theorem pipeline_order :
  (forall file_path w w',
     index_document file_path w = (Returned tt, w') ->
     exists b pages,
       files w !! Py.canonical file_path = Some (CBytes b)
       /\ pdf_pages b = Ok pages
       /\ stored_docs (rag_service w')
          = stored_docs (rag_service w)
            ++ concat (split_document 1000 200
                         <$> imap (page_document file_path) pages)
       /\ trace w'
          = trace w ++
            [ Called OnLoop (PyPDFLoader_load file_path);
              Called OnLoop (split_documents 1000 200);
              Called OnLoop (embed_call (rag_service w));
              Called OnLoop
                (FAISS_save_local (persist_directory (rag_service w))) ])
  /\ (forall wh c q w reply w',
        chain_invoke wh c q w = (Returned reply, w') ->
        exists docs,
          retrieved (rag_service w) (chain_retriever c) q docs
          /\ llm_reply (chain_llm c) (prompt_template (format_docs docs) q)
             = Ok reply
          /\ trace w'
             = trace w ++
               [ Called wh (retriever_invoke (search_k (chain_retriever c)) q);
                 Called wh prompt_invoke;
                 Called wh
                   (llm_invoke (prompt_template (format_docs docs) q));
                 Called wh StrOutputParser_invoke ])
  /\ (forall q w r w',
        query q w = (Returned r, w') ->
        exists c docs rest,
          qa_chain (rag_service w) = Some c
          /\ retrieved (rag_service w) (chain_retriever c) q docs
          /\ llm_reply (chain_llm c) (prompt_template (format_docs docs) q)
             = Ok (answer r)
          /\ trace w'
             = trace w ++
               [ Called (OnExecutor ServiceExecutor)
                   (retriever_invoke (search_k (chain_retriever c)) q);
                 Called (OnExecutor ServiceExecutor) prompt_invoke;
                 Called (OnExecutor ServiceExecutor)
                   (llm_invoke (prompt_template (format_docs docs) q));
                 Called (OnExecutor ServiceExecutor) StrOutputParser_invoke ]
               ++ rest).
Proof.
  split_and!.
  - intros file_path w w' Hrun.
    pose proof (wp_run _ _ _ _ _ Hrun (index_document_spec file_path w))
      as Hpost. simpl in Hpost.
    destruct (Hpost eq_refl)
      as (b & pages & vs' & Hfile & Hpages & Hvs & Hdocs & Htrace & _).
    exists b, pages. split_and!; try done.
    unfold stored_docs at 1. by rewrite Hvs, Hdocs.
  - intros wh c q w reply w' Hrun.
    pose proof (wp_run _ _ _ _ _ Hrun (chain_invoke_spec wh c q w))
      as Hpost. simpl in Hpost.
    destruct Hpost as (_ & _ & _ & Hpost). by apply Hpost.
  - intros q w r w' Hrun.
    pose proof (wp_run _ _ _ _ _ Hrun (query_spec q w)) as Hpost.
    simpl in Hpost. destruct Hpost as (_ & _ & _ & Hpost).
    destruct (Hpost r eq_refl)
      as (c & rt & docs1 & docs2 & entries
          & Hc & _ & Hdocs & Hreply & _ & _ & _ & Htrace).
    exists c, docs1,
      [Called (OnExecutor ServiceExecutor)
         (retriever_invoke (search_k rt) q)].
    by split_and!.
Qed.

End Pipeline.

Lemma pipeline_order_witness :
  trace Toy.w_indexed
  = [ Called OnLoop (PyPDFLoader_load "documents/Bylaws.pdf");
      Called OnLoop (split_documents 1000 200);
      Called OnLoop FAISS_from_documents;
      Called OnLoop (FAISS_save_local "./faiss_index") ].
Proof.
  destruct (@pipeline_order Toy.quick) as (Hindex & _ & _).
  destruct (Hindex "documents/Bylaws.pdf"
              (write_file "documents/Bylaws.pdf" (CBytes Toy.pdf_header)
                 (os_makedirs "documents" Toy.w_started).2).2
              Toy.w_indexed)
    as (b & pages & _ & _ & _ & Htrace).
  - vm_compute. reflexivity.
  - exact Htrace.
Defined.

(** ** Where the library calls run (C7) *)

Section Offloading.
Context {L : Libraries}.

Lemma emits_same (P : Event -> Prop) (w w' : World) :
  trace w' = trace w -> emits P w w'.
Proof. intros H. exists []. split; [by rewrite app_nil_r | constructor]. Qed.

Lemma emits_one (P : Event -> Prop) (w : World) (e : Event) :
  P e -> emits P w (with_trace (trace w ++ [e]) w).
Proof. intros H. exists [e]. split; [done | by constructor]. Qed.

Lemma keeps_trace_update_self (P : Event -> Prop)
    (f : RAGService -> RAGService) :
  steps (emits P) (update_self f).
Proof. intros w. by apply emits_same. Qed.






End Offloading.



(** ** Persistence of the index (C4) *)

Section Persistence.
Context {L : Libraries}.

Lemma path_exists_file (p : string) (w : World) (c : Content) :
  files w !! Py.canonical p = Some c -> path_exists p w = true.
Proof.
  intros Hfile. unfold path_exists. rewrite Hfile.
  rewrite (bool_decide_eq_true_2 (is_Some (Some c))) by eauto.
  apply orb_true_r.
Qed.

Lemma init_loads_index (w0 : World) (emb : Embeddings) (the_llm : LLM)
    (n : nat) (docs : list Document) (d : N) :
  _get_embeddings (environ w0) = Ok emb ->
  _get_llm (environ w0) = Ok the_llm ->
  files w0 !! "faiss_index/index.faiss" = Some (CFaissIndex n) ->
  files w0 !! "faiss_index/index.pkl" = Some (CPickle docs) ->
  latency (FAISS_load_local "./faiss_index") = Some d ->
  wp RAGService__init__
    (fun o w =>
       o = Returned tt
       /\ vectorstore (rag_service w) = Some (mk_VectorStore docs emb)
       /\ is_initialized (rag_service w) = true)
    w0.
Proof.
  intros Hemb Hllm Hfaiss Hpkl Hlat.
  assert (forall s, path_exists "./faiss_index/index.faiss"
                      (with_rag s w0) = true) as Hexists.
  { intros s. by eapply path_exists_file. }
  unfold RAGService__init__, _initialize, _initialize_qa_chain, FAISS_load.
  wp_go.
  all: change (Py.path_join "./faiss_index" "index.faiss")
         with "./faiss_index/index.faiss" in *.
  all: change (Py.path_join "./faiss_index" "index.pkl")
         with "./faiss_index/index.pkl" in *.
  all: change (Py.canonical "./faiss_index/index.faiss")
         with "faiss_index/index.faiss" in *.
  all: change (Py.canonical "./faiss_index/index.pkl")
         with "faiss_index/index.pkl" in *.
  all: try congruence.
  by simplify_eq.
Qed.

(** C4, amended: a successful [index_document] leaves the updated vector
    store in the service and its saved form in the two files of
    [./faiss_index].  When the service is constructed and the embedding
    and LLM clients can be configured, an index saved there is loaded (if
    the load returns) and the service starts initialized; in particular a
    service constructed on the files a successful [index_document] left
    holds the same chunks. *)
Theorem index_is_persisted :
  (forall file_path w w',
     persist_directory (rag_service w) = "./faiss_index" ->
     index_document file_path w = (Returned tt, w') ->
     exists vs',
       vectorstore (rag_service w') = Some vs'
       /\ files w' !! "faiss_index/index.faiss"
          = Some (CFaissIndex (length (vs_docs vs')))
       /\ files w' !! "faiss_index/index.pkl"
          = Some (CPickle (vs_docs vs')))
  /\ (forall w0 emb the_llm n docs d,
        _get_embeddings (environ w0) = Ok emb ->
        _get_llm (environ w0) = Ok the_llm ->
        files w0 !! "faiss_index/index.faiss" = Some (CFaissIndex n) ->
        files w0 !! "faiss_index/index.pkl" = Some (CPickle docs) ->
        latency (FAISS_load_local "./faiss_index") = Some d ->
        (RAGService__init__ w0).1 = Returned tt
        /\ vectorstore (rag_service (RAGService__init__ w0).2)
           = Some (mk_VectorStore docs emb)
        /\ is_initialized (rag_service (RAGService__init__ w0).2) = true)
  /\ (forall file_path w w' w0 emb the_llm d,
        persist_directory (rag_service w) = "./faiss_index" ->
        index_document file_path w = (Returned tt, w') ->
        files w0 = files w' ->
        _get_embeddings (environ w0) = Ok emb ->
        _get_llm (environ w0) = Ok the_llm ->
        latency (FAISS_load_local "./faiss_index") = Some d ->
        is_initialized (rag_service (RAGService__init__ w0).2) = true
        /\ stored_docs (rag_service (RAGService__init__ w0).2)
           = stored_docs (rag_service w')).
Proof.
  assert (forall file_path w w',
     persist_directory (rag_service w) = "./faiss_index" ->
     index_document file_path w = (Returned tt, w') ->
     exists vs',
       vectorstore (rag_service w') = Some vs'
       /\ files w' !! "faiss_index/index.faiss"
          = Some (CFaissIndex (length (vs_docs vs')))
       /\ files w' !! "faiss_index/index.pkl"
          = Some (CPickle (vs_docs vs'))) as Hsave.
  { intros file_path w w' Hdir Hrun.
    pose proof (wp_run _ _ _ _ _ Hrun (index_document_spec file_path w))
      as Hpost. simpl in Hpost.
    destruct (Hpost eq_refl)
      as (b & pages & vs' & _ & _ & Hvs & _ & _ & Hfiles).
    exists vs'. split; [exact Hvs|].
    unfold index_pkl, index_faiss in Hfiles. rewrite Hdir in Hfiles.
    change (Py.canonical (Py.path_join "./faiss_index" "index.faiss"))
      with "faiss_index/index.faiss" in Hfiles.
    change (Py.canonical (Py.path_join "./faiss_index" "index.pkl"))
      with "faiss_index/index.pkl" in Hfiles.
    rewrite Hfiles. split.
    - by rewrite lookup_insert_ne, lookup_insert_eq.
    - by rewrite lookup_insert_eq. }
  assert (forall w0 emb the_llm n docs d,
        _get_embeddings (environ w0) = Ok emb ->
        _get_llm (environ w0) = Ok the_llm ->
        files w0 !! "faiss_index/index.faiss" = Some (CFaissIndex n) ->
        files w0 !! "faiss_index/index.pkl" = Some (CPickle docs) ->
        latency (FAISS_load_local "./faiss_index") = Some d ->
        (RAGService__init__ w0).1 = Returned tt
        /\ vectorstore (rag_service (RAGService__init__ w0).2)
           = Some (mk_VectorStore docs emb)
        /\ is_initialized (rag_service (RAGService__init__ w0).2) = true)
    as Hload.
  { intros w0 emb the_llm n docs d Hemb Hllm Hfaiss Hpkl Hlat.
    exact (init_loads_index w0 emb the_llm n docs d Hemb Hllm Hfaiss Hpkl
             Hlat). }
  split; [exact Hsave|]. split; [exact Hload|].
  intros file_path w w' w0 emb the_llm d Hdir Hrun Hfiles Hemb Hllm Hlat.
  destruct (Hsave file_path w w' Hdir Hrun) as (vs' & Hvs & Hfaiss & Hpkl).
  rewrite <- Hfiles in Hfaiss, Hpkl.
  destruct (Hload w0 emb the_llm _ _ d Hemb Hllm Hfaiss Hpkl Hlat)
    as (_ & Hstore & Hinit).
  split; [exact Hinit|]. unfold stored_docs. by rewrite Hstore, Hvs.
Qed.

End Persistence.

(** C4, as stated: an index is on disk, but the configured LLM provider has
    no API key; the constructor does not load the index and the service
    starts uninitialized. *)
Lemma saved_index_is_not_always_loaded :
  path_exists "./faiss_index/index.faiss" Toy.w_saved_no_key = true
  /\ vectorstore
       (rag_service (@RAGService__init__ Toy.quick Toy.w_saved_no_key).2)
     = None
  /\ is_initialized
       (rag_service (@RAGService__init__ Toy.quick Toy.w_saved_no_key).2)
     = false.
Proof. split_and!; by vm_compute. Qed.

Lemma index_is_persisted_witness :
  is_initialized (rag_service (@RAGService__init__ Toy.quick Toy.w_saved).2)
  = true.
Proof.
  destruct (@index_is_persisted Toy.quick) as (_ & Hload & _).
  destruct (Hload Toy.w_saved
              (HuggingFaceEmbeddings "sentence-transformers/all-MiniLM-L6-v2")
              (Ollama "http://localhost:11434" "mistral" 120)
              0%nat [] 1%N)
    as (_ & _ & Hinit).
  - vm_compute. reflexivity.
  - vm_compute. reflexivity.
  - vm_compute. reflexivity.
  - vm_compute. reflexivity.
  - vm_compute. reflexivity.
  - exact Hinit.
Defined.

(** ** Uploads (C6) *)

Section Upload.
Context {L : Libraries}.







End Upload.



(** ** Timeouts (C2) *)

Section Timeouts.
Context {L : Libraries}.



Lemma wp_of_steps {A} (R : World -> World -> Prop) (m : M A) (w : World) :
  steps R m -> wp m (fun _ w' => R w w') w.
Proof. intros Hm. apply Hm. Qed.









End Timeouts.



(** * Further properties *)

(** ** Configuration *)

Section Configuration.
Context {L : Libraries}.

Lemma lower_ascii_idem (c : ascii) :
  Py.lower_ascii (Py.lower_ascii c) = Py.lower_ascii c.
Proof. by destruct c as [[] [] [] [] [] [] [] []]. Qed.

Lemma lower_idem (s : string) : Py.lower (Py.lower s) = Py.lower s.
Proof.
  induction s as [|c s IH]; simpl; [done|].
  by rewrite lower_ascii_idem, IH.
Qed.

(** X1: the provider names are matched without regard to case: writing
    [LLM_PROVIDER] (for [_get_llm]) or [EMBEDDING_PROVIDER] (for
    [_get_embeddings]) in lower case gives the same client or the same
    error. *)
Theorem provider_case_insensitive (env : gmap string string) (p : string) :
  _get_llm (<["LLM_PROVIDER" := p]> env)
  = _get_llm (<["LLM_PROVIDER" := Py.lower p]> env)
  /\ _get_embeddings (<["EMBEDDING_PROVIDER" := p]> env)
     = _get_embeddings (<["EMBEDDING_PROVIDER" := Py.lower p]> env).
Proof.
  unfold _get_llm, _get_embeddings, getenv.
  rewrite !lookup_insert_eq, lower_idem.
  by rewrite !lookup_insert_ne by done.
Qed.

(** X2: [health_check] compares the provider as it is written, [_get_llm]
    in lower case.  When [LLM_PROVIDER] is a spelling of [ollama] other
    than the lower-case one, the client is the Ollama client for
    [OLLAMA_MODEL], but [/api/health] reports the model of
    [HUGGINGFACE_MODEL] (default [mistral]). *)
Theorem health_model_mismatch (w : World) (p : string) :
  environ w !! "LLM_PROVIDER" = Some p ->
  Py.lower p = "ollama" ->
  p <> "ollama" ->
  _get_llm (environ w)
  = Ok (Ollama (getenv (environ w) "OLLAMA_BASE_URL" "http://localhost:11434")
          (getenv (environ w) "OLLAMA_MODEL" "mistral") 120)
  /\ health_check w
     = (Returned
          (Health "healthy" (is_initialized (rag_service w)) p
             (getenv (environ w) "HUGGINGFACE_MODEL" "mistral")
             (bool_decide (is_Some (vectorstore (rag_service w))))),
        w).
Proof.
  intros Hp Hlower Hne.
  assert (getenv (environ w) "LLM_PROVIDER" "ollama" = p) as Hget.
  { unfold getenv. by rewrite Hp. }
  split.
  - unfold _get_llm. by rewrite Hget, Hlower.
  - unfold health_check, bind, get_world, ret. simpl. rewrite Hget.
    by apply String.eqb_neq in Hne as ->.
Qed.

(** X3: [/api/health] reads only: the state is unchanged and the answer
    is always [healthy]; in every state the server can reach, it never
    reports [rag_initialized] without [has_documents]. *)
Theorem health_is_read_only (w : World) :
  exists initialized provider model documents,
    health_check w
    = (Returned (Health "healthy" initialized provider model documents), w)
    /\ (reachable w -> initialized = true -> documents = true).
Proof.
  eexists _, _, _, _. split; [reflexivity|].
  intros Hreach Hinit.
  destruct (reachable_service_inv w Hreach) as (_ & Hchain & _).
  unfold is_initialized in Hinit.
  destruct (qa_chain (rag_service w)) as [c|] eqn:Hq; [|done].
  destruct (Hchain c eq_refl) as (_ & _ & Hstore & _).
  by apply bool_decide_eq_true_2.
Qed.

Lemma init_outcome_files (w : World) :
  wp RAGService__init__
    (fun o w' =>
       (o = Returned tt \/ o = Hangs)
       /\ files w' = files w /\ dirs w' = dirs w)
    w.
Proof.
  unfold RAGService__init__, _initialize, _initialize_qa_chain, FAISS_load.
  wp_go; auto.
Qed.

(** X4: constructing the service never raises: an error of the
    configuration or of the load is swallowed.  It writes no file and
    creates no directory. *)
Theorem construction_never_raises (w : World) :
  ((RAGService__init__ w).1 = Returned tt
   \/ (RAGService__init__ w).1 = Hangs)
  /\ files (RAGService__init__ w).2 = files w
  /\ dirs (RAGService__init__ w).2 = dirs w.
Proof. apply init_outcome_files. Qed.

End Configuration.

Lemma health_model_mismatch_witness :
  _get_llm {["LLM_PROVIDER" := "Ollama"]}
  = Ok (Ollama "http://localhost:11434" "mistral" 120).
Proof.
  destruct (health_model_mismatch
              (mk_World {["LLM_PROVIDER" := "Ollama"]} ∅ ∅ 0 0 None []
                 Toy.blank_service) "Ollama") as [Hllm _].
  - vm_compute. reflexivity.
  - vm_compute. reflexivity.
  - discriminate.
  - exact Hllm.
Defined.

Lemma health_is_read_only_witness :
  exists initialized provider model documents,
    health_check Toy.w_indexed
    = (Returned (Health "healthy" initialized provider model documents),
       Toy.w_indexed)
    /\ (@reachable Toy.quick Toy.w_indexed ->
        initialized = true -> documents = true).
Proof. apply (@health_is_read_only Toy.quick Toy.w_indexed). Defined.

(** ** The service object over time *)

Global Instance read_only_preorder : PreOrder read_only.
Proof.
  split.
  - by intros w.
  - intros w1 w2 w3 (? & ? & ?) (? & ? & ?). split_and!; congruence.
Qed.

Global Instance service_steps_preorder : PreOrder service_steps.
Proof.
  split.
  - intros w. split_and!; try done. exists []. by rewrite app_nil_r.
  - intros w1 w2 w3 (Hl & He & Hp & (x & Hx) & Hv & Hi)
      (Hl' & He' & Hp' & (y & Hy) & Hv' & Hi').
    split_and!; try congruence; try tauto.
    exists (x ++ y). by rewrite Hy, Hx, app_assoc.
Qed.

Section ServiceOverTime.
Context {L : Libraries}.

Lemma service_steps_same (w w' : World) :
  rag_service w' = rag_service w -> service_steps w w'.
Proof.
  intros Hsame. pose proof (reflexivity (R := service_steps) w) as Hrefl.
  unfold service_steps in *. by rewrite Hsame.
Qed.

(** Forgets what the file system said along the way. *)
Ltac forget_fs :=
  repeat match goal with
         | H : _ ∈ dirs _ |- _ => clear H
         | H : _ ∉ dirs _ |- _ => clear H
         | H : parent_ok _ _ = _ |- _ => clear H
         end.

Ltac unfold_index_document :=
  unfold index_document, PyPDFLoader, RecursiveCharacterTextSplitter,
    FAISS_add, FAISS_from, FAISS_save, _initialize_qa_chain.

Lemma index_document_service_steps (file_path : string) :
  steps service_steps (index_document file_path).
Proof.
  intros w.
  change (wp (index_document file_path)
            (fun _ w' => service_steps w w') w).
  unfold_index_document. wp_go.
  all: forget_fs.
  all: unfold service_steps, service_step, stored_docs, is_initialized;
    wsimpl;
    repeat match goal with
           | H : vectorstore _ = _ |- _ => rewrite H
           end.
  all: split_and!; eauto.
  all: first [ by eexists | exists []; by rewrite app_nil_r ].
Qed.

Lemma index_document_files (file_path : string) (w : World) :
  wp (index_document file_path) (fun _ w' => index_files_only w w') w.
Proof.
  unfold_index_document. wp_go.
  all: forget_fs.
  all: unfold index_files_only, index_faiss, index_pkl; wsimpl.
  all: intros k Hfaiss Hpkl; by rewrite ?lookup_insert_ne by done.
Qed.

Lemma index_document_raises (file_path : string) (w : World) :
  wp (index_document file_path)
    (fun o _ =>
       o <> Cancelled
       /\ forall e, o = Raised e ->
            exists msg,
              e = Exception ("Error indexing document: " +:+ msg))
    w.
Proof.
  unfold_index_document. wp_go.
  all: split; [done|]; intros exc [= <-]; eexists; reflexivity.
Qed.

Lemma index_document_chain (file_path : string) (w : World) :
  wp (index_document file_path)
    (fun o w' =>
       o = Returned tt ->
       qa_chain (rag_service w')
       = match llm (rag_service w) with
         | Some l => Some (mk_Chain (mk_Retriever 2) l)
         | None => qa_chain (rag_service w)
         end)
    w.
Proof.
  unfold_index_document. wp_go.
  all: intros [=].
  all: repeat match goal with
              | H : llm _ = _ |- _ => rewrite H
              end; reflexivity.
Qed.

(** X5: [index_document] only ever raises [Exception] with a message that
    starts with [Error indexing document: ], whatever the library raised;
    for a path that is not a file it does so without calling any library
    and leaves the whole state as it was. *)
Theorem index_document_errors :
  (forall file_path w e w',
     index_document file_path w = (Raised e, w') ->
     exists msg, e = Exception ("Error indexing document: " +:+ msg))
  /\ (forall file_path w,
        files w !! Py.canonical file_path = None ->
        index_document file_path w
        = (Raised
             (Exception
                ("Error indexing document: File path " +:+ file_path
                 +:+ " is not a valid file or url")),
           w)).
Proof.
  split.
  - intros file_path w e w' Hrun.
    pose proof (wp_run _ _ _ _ _ Hrun (index_document_raises file_path w))
      as [_ Hraised].
    by apply Hraised.
  - intros file_path w Hnone.
    unfold index_document, PyPDFLoader, try_except, bind, get_world.
    simpl. by rewrite Hnone.
Qed.

(** X6: indexing the same file twice stores its chunks twice: nothing
    recognises a document that is already in the index. *)
Theorem reindexing_duplicates_chunks (file_path : string)
    (w w1 w2 : World) :
  index_document file_path w = (Returned tt, w1) ->
  index_document file_path w1 = (Returned tt, w2) ->
  exists b pages,
    files w !! Py.canonical file_path = Some (CBytes b)
    /\ pdf_pages b = Ok pages
    /\ stored_docs (rag_service w2)
       = stored_docs (rag_service w)
         ++ chunks_of file_path pages ++ chunks_of file_path pages.
Proof.
  intros Hrun1 Hrun2.
  pose proof (wp_run _ _ _ _ _ Hrun1 (index_document_spec file_path w))
    as Hpost1. simpl in Hpost1.
  destruct (Hpost1 eq_refl)
    as (b & pages & vs1 & Hfile & Hpages & Hvs1 & Hdocs1 & _ & Hfiles1).
  pose proof (wp_run _ _ _ _ _ Hrun2 (index_document_spec file_path w1))
    as Hpost2. simpl in Hpost2.
  destruct (Hpost2 eq_refl)
    as (b2 & pages2 & vs2 & Hfile2 & Hpages2 & Hvs2 & Hdocs2 & _ & _).
  assert (b2 = b) as ->.
  { rewrite Hfiles1 in Hfile2.
    destruct (decide (Py.canonical file_path = index_pkl (rag_service w)))
      as [Heq|Hne1].
    { by rewrite Heq, lookup_insert_eq in Hfile2. }
    rewrite lookup_insert_ne in Hfile2 by done.
    destruct (decide (Py.canonical file_path
                      = index_faiss (rag_service w))) as [Heq|Hne2].
    { by rewrite Heq, lookup_insert_eq in Hfile2. }
    rewrite lookup_insert_ne in Hfile2 by done. congruence. }
  assert (pages2 = pages) as -> by congruence.
  exists b, pages. split_and!; [done|done|].
  unfold stored_docs at 1. rewrite Hvs2, Hdocs2.
  unfold stored_docs at 1. rewrite Hvs1, Hdocs1.
  by rewrite <- app_assoc.
Qed.

(** X7: a successful [index_document] leaves the service initialized
    exactly when an LLM is configured (or it was initialized before): with
    no LLM the document is indexed and saved but no QA chain is built. *)
Theorem index_document_initializes (file_path : string) (w w' : World) :
  index_document file_path w = (Returned tt, w') ->
  (is_initialized (rag_service w') = true
   <-> is_Some (llm (rag_service w))
       \/ is_initialized (rag_service w) = true).
Proof.
  intros Hrun.
  pose proof (wp_run _ _ _ _ _ Hrun (index_document_chain file_path w))
    as Hchain. simpl in Hchain. specialize (Hchain eq_refl).
  unfold is_initialized. rewrite Hchain.
  destruct (llm (rag_service w)) as [l|]; split; eauto.
  intros [[? [=]]|?]; done.
Qed.

Ltac unchanged_service :=
  intros; apply service_steps_same; reflexivity.

Lemma handler_service_steps (h : Handler) (p : Payload) (run : M Body) :
  run_handler h p = Some run -> steps service_steps run.
Proof.
  intros Hrun. destruct h, p; simplify_eq/=.
  all: unfold read_root, health_check, test_llm, ask_question,
         upload_bylaws, submit_change_request, query, chain_invoke,
         retriever_get.
  all: steps_walk unchanged_service
         ltac:(apply index_document_service_steps).
Qed.

Lemma app_service_steps (m : Method) (path : string) (p : Payload)
    (w : World) :
  service_steps w (app m path p w).2.
Proof.
  unfold app. destruct (find_route m path) as [h|]; [|reflexivity].
  destruct (run_handler h p) as [run|] eqn:Hrun; [|reflexivity].
  pose proof (handler_service_steps h p run Hrun w) as Hsteps.
  by destruct (run w).
Qed.

(** X8: whatever the request, the configuration of the service (LLM,
    embeddings, persist directory) is what the constructor made it, the
    store keeps every chunk it had and may only gain chunks after them,
    and a service that was initialized stays initialized. *)
Theorem requests_keep_the_service (m : Method) (path : string)
    (p : Payload) (w : World) :
  service_step (rag_service w) (rag_service (app m path p w).2).
Proof. apply app_service_steps. Qed.

End ServiceOverTime.

Lemma index_document_errors_witness :
  exists msg,
    Exception
      "Error indexing document: File path nothing.pdf is not a valid file or url"
    = Exception ("Error indexing document: " +:+ msg).
Proof.
  destruct (@index_document_errors Toy.quick) as [Hwrapped _].
  apply (Hwrapped "nothing.pdf" Toy.w_started _ Toy.w_started).
  vm_compute. reflexivity.
Defined.

Lemma reindexing_duplicates_chunks_witness :
  exists b pages,
    files
      (write_file "documents/Bylaws.pdf" (CBytes Toy.pdf_header)
         (os_makedirs "documents" Toy.w_started).2).2
    !! Py.canonical "documents/Bylaws.pdf" = Some (CBytes b)
    /\ @pdf_pages Toy.quick b = Ok pages
    /\ stored_docs
         (rag_service
            (@index_document Toy.quick "documents/Bylaws.pdf"
               Toy.w_indexed).2)
       = stored_docs
           (rag_service
              (write_file "documents/Bylaws.pdf" (CBytes Toy.pdf_header)
                 (os_makedirs "documents" Toy.w_started).2).2)
         ++ @chunks_of Toy.quick "documents/Bylaws.pdf" pages
         ++ @chunks_of Toy.quick "documents/Bylaws.pdf" pages.
Proof.
  apply (@reindexing_duplicates_chunks Toy.quick "documents/Bylaws.pdf"
           (write_file "documents/Bylaws.pdf" (CBytes Toy.pdf_header)
              (os_makedirs "documents" Toy.w_started).2).2
           Toy.w_indexed).
  - vm_compute. reflexivity.
  - vm_compute. reflexivity.
Defined.

Lemma index_document_initializes_witness :
  is_initialized (rag_service Toy.w_indexed) = true
  <-> is_Some
        (llm
           (rag_service
              (write_file "documents/Bylaws.pdf" (CBytes Toy.pdf_header)
                 (os_makedirs "documents" Toy.w_started).2).2))
      \/ is_initialized
           (rag_service
              (write_file "documents/Bylaws.pdf" (CBytes Toy.pdf_header)
                 (os_makedirs "documents" Toy.w_started).2).2)
         = true.
Proof.
  apply (@index_document_initializes Toy.quick "documents/Bylaws.pdf").
  vm_compute. reflexivity.
Defined.

(** ** Questions *)

Section Questions.
Context {L : Libraries}.

Ltac reads :=
  intros; first [ reflexivity | by split_and! ].

Lemma query_reads (q : string) : steps read_only (query q).
Proof.
  unfold query, chain_invoke, retriever_get.
  steps_walk reads fail.
Qed.

Lemma query_raises (q : string) (w : World) :
  wp (query q)
    (fun o _ =>
       forall e, o = Raised e ->
         e = Exception not_initialized_message
         \/ exists msg, e = Exception ("Error querying RAG system: " +:+ msg))
    w.
Proof.
  unfold query, chain_invoke, retriever_get. wp_go.
  all: intros exc [= <-]; first [ by left | right; eexists; reflexivity ].
Qed.

(** X9: [query] reads only (service object, files and directories are
    unchanged, however it ends), and it only ever raises [Exception]:
    with the not-initialized message, or with a message that starts with
    [Error querying RAG system: ]. *)
Theorem query_reads_and_wraps_errors :
  (forall q w,
     rag_service (query q w).2 = rag_service w
     /\ files (query q w).2 = files w
     /\ dirs (query q w).2 = dirs w)
  /\ (forall q w e w',
        query q w = (Raised e, w') ->
        e = Exception not_initialized_message
        \/ exists msg,
             e = Exception ("Error querying RAG system: " +:+ msg)).
Proof.
  split.
  - intros q w. apply query_reads.
  - intros q w e w' Hrun.
    by apply (wp_run _ _ _ _ _ Hrun (query_raises q w)).
Qed.




Lemma ask_in_time_core (q : Question) (w : World) :
  wp (query (question q))
    (fun o0 w0 =>
       o0 <> Hangs ->
       (elapsed w0 - elapsed w <= 120000)%N ->
       wp (ask_question q) (fun o _ => o = ask_outcome o0) w)
    (with_deadline None w).
Proof.
  unfold ask_question, query, chain_invoke, retriever_get.
  wp_go.
  all: intros Hends Hfast; try done; wp_go.
  all: try reflexivity.
  all: repeat match goal with
              | H : (_ <? _)%N = false |- _ => apply N.ltb_ge in H
              | H : (_ <? _)%N = true |- _ => apply N.ltb_lt in H
              end.
  all: try lia.
Qed.

(** X11: when the query, run on its own, ends within 120 s, [/api/ask]
    passes its outcome on: the answer and sources with status 200 if it
    returned, HTTP 500 with the message of the exception if it raised. *)
Theorem ask_passes_the_query_on (q : Question) (w w0 : World)
    (o0 : Outcome QueryResult) :
  query (question q) (with_deadline None w) = (o0, w0) ->
  o0 <> Hangs ->
  (elapsed w0 - elapsed w <= 120000)%N ->
  (ask_question q w).1 = ask_outcome o0.
Proof.
  intros Hq Hends Hfast.
  by apply (wp_run _ _ _ _ _ Hq (ask_in_time_core q w)).
Qed.

End Questions.

Lemma query_reads_and_wraps_errors_witness :
  Exception not_initialized_message = Exception not_initialized_message
  \/ exists msg,
       Exception not_initialized_message
       = Exception ("Error querying RAG system: " +:+ msg).
Proof.
  destruct (@query_reads_and_wraps_errors Toy.quick) as [_ Hraised].
  apply (Hraised "May I build a fence?" Toy.w_started _ Toy.w_started).
  vm_compute. reflexivity.
Defined.

Lemma ask_passes_the_query_on_witness :
  (@ask_question Toy.slow Toy.fence_question Toy.w_indexed).1
  = ask_outcome
      (Returned
         (mk_QueryResult "Yes, with approval."
            ["Bylaws.pdf (Page 2)"; "Bylaws.pdf (Page 1)"])).
Proof.
  apply (@ask_passes_the_query_on Toy.slow Toy.fence_question Toy.w_indexed
           (@query Toy.slow "May I build a fence?"
              (with_deadline None Toy.w_indexed)).2).
  - vm_compute. reflexivity.
  - discriminate.
  - vm_compute. discriminate.
Defined.

(** ** The LLM probe *)

Section Probe.
Context {L : Libraries}.

Lemma test_llm_spec (w : World) :
  wp test_llm
    (fun o w' =>
       (exists status message response,
          o = Returned (LlmTest status message response))
       /\ (llm (rag_service w) = None ->
           o = Returned llm_not_initialized /\ trace w' = trace w)
       /\ (forall l,
             llm (rag_service w) = Some l ->
             latency (llm_invoke "Say 'Hello'") = None
             \/ (exists d, latency (llm_invoke "Say 'Hello'") = Some d
                           /\ (10000 < d)%N) ->
             o = Returned llm_timed_out)
       /\ (forall l d r,
             llm (rag_service w) = Some l ->
             latency (llm_invoke "Say 'Hello'") = Some d ->
             (d <= 10000)%N ->
             llm_reply l "Say 'Hello'" = Ok r ->
             o = Returned (llm_responding r)))
    w.
Proof.
  unfold test_llm. wp_go.
  all: repeat match goal with
              | H : (_ <? _)%N = false |- _ => apply N.ltb_ge in H
              | H : (_ <? _)%N = true |- _ => apply N.ltb_lt in H
              end.
  all: split_and!; [by eexists _, _, _| | |].
  all: try (intros; simplify_eq; fail).
  all: try (intros ? ? [?|(? & ? & ?)]; simplify_eq; first [done | lia]).
  all: intros; simplify_eq; unfold llm_responding;
    first [done | lia | congruence].
Qed.

Lemma test_llm_reads : steps read_only test_llm.
Proof.
  unfold test_llm.
  steps_walk ltac:(intros; first [ reflexivity | by split_and! ]) fail.
Qed.

(** X12: [/api/test-llm] always returns a body, it never raises, and it
    reads only.  Without an LLM it says so and calls nothing; when the
    LLM takes more than 10 s, or never answers, it reports a timeout;
    when the LLM answers within 10 s, it reports success with the
    reply. *)
Theorem test_llm_always_answers (w : World) :
  (exists status message response,
     (test_llm w).1 = Returned (LlmTest status message response))
  /\ rag_service (test_llm w).2 = rag_service w
  /\ files (test_llm w).2 = files w
  /\ dirs (test_llm w).2 = dirs w
  /\ (llm (rag_service w) = None ->
      (test_llm w).1 = Returned llm_not_initialized
      /\ trace (test_llm w).2 = trace w)
  /\ (forall l,
        llm (rag_service w) = Some l ->
        latency (llm_invoke "Say 'Hello'") = None
        \/ (exists d, latency (llm_invoke "Say 'Hello'") = Some d
                      /\ (10000 < d)%N) ->
        (test_llm w).1 = Returned llm_timed_out)
  /\ (forall l d r,
        llm (rag_service w) = Some l ->
        latency (llm_invoke "Say 'Hello'") = Some d ->
        (d <= 10000)%N ->
        llm_reply l "Say 'Hello'" = Ok r ->
        (test_llm w).1 = Returned (llm_responding r)).
Proof.
  pose proof (test_llm_spec w) as (Hbody & Hnone & Hslow & Hfast).
  pose proof (test_llm_reads w) as (Hrag & Hfiles & Hdirs).
  by split_and!.
Qed.

End Probe.

Lemma test_llm_always_answers_witness :
  (@test_llm Toy.stuck Toy.w_indexed).1 = Returned llm_timed_out.
Proof.
  destruct (@test_llm_always_answers Toy.stuck Toy.w_indexed)
    as (_ & _ & _ & _ & _ & Hslow & _).
  apply (Hslow (Ollama "http://localhost:11434" "mistral" 120)).
  - vm_compute. reflexivity.
  - left. vm_compute. reflexivity.
Defined.

(** ** Chunks without a page number *)

Section PagedChunks.
Context {L : Libraries}.

Lemma source_entry_well_paged (doc : Document) (s : string) :
  source_entry doc = Ok s -> well_paged doc.
Proof.
  unfold source_entry, well_paged.
  destruct (metadata doc !! "source") as [[src|z]|]; simpl; [|done|].
  all: destruct (metadata doc !! "page") as [[|z]|]; simpl; try done.
  all: intros _; split; [by eexists|done].
Qed.

Lemma source_entries_well_paged (docs : list Document) (l : list string) :
  source_entries docs = Ok l -> Forall well_paged docs.
Proof.
  revert l. induction docs as [|doc docs IH]; intros l; simpl.
  - constructor.
  - destruct (source_entry doc) as [s|] eqn:Hdoc; [|done].
    destruct (source_entries docs) as [l0|]; [|done].
    intros _. constructor; [by eapply source_entry_well_paged | by eapply IH].
Qed.

(** X13: [query] returns only if every chunk the retriever found for the
    sources carries an integer page number (and no integer as source): a
    single chunk without one makes the whole query fail, after the LLM
    has answered.  The sources are then at most as many as these
    chunks. *)
Theorem query_needs_page_numbers (q : string) (w w' : World)
    (r : QueryResult) :
  query q w = (Returned r, w') ->
  exists rt docs,
    retriever (rag_service w) = Some rt
    /\ retrieved (rag_service w) rt q docs
    /\ Forall well_paged docs
    /\ length (sources r) <= length docs.
Proof.
  intros Hrun.
  pose proof (wp_run _ _ _ _ _ Hrun (query_spec q w)) as Hpost.
  simpl in Hpost. destruct Hpost as (_ & _ & _ & Hpost).
  destruct (Hpost r eq_refl)
    as (chain & rt & docs1 & docs2 & entries
        & _ & Hrt & _ & _ & Hdocs2 & Hentries & Hsources & _).
  exists rt, docs2. split_and!; [done|done| |].
  - by eapply source_entries_well_paged.
  - rewrite Hsources. etrans; [apply list_set_length|].
    by destruct (source_entries_each _ _ Hentries) as [-> _].
Qed.

End PagedChunks.

Lemma query_needs_page_numbers_witness :
  exists rt docs,
    retriever (rag_service Toy.w_indexed) = Some rt
    /\ @retrieved Toy.quick (rag_service Toy.w_indexed) rt
         "May I build a fence?" docs
    /\ Forall well_paged docs
    /\ length ["Bylaws.pdf (Page 2)"; "Bylaws.pdf (Page 1)"] <= length docs.
Proof.
  apply (@query_needs_page_numbers Toy.quick "May I build a fence?"
           Toy.w_indexed
           (@query Toy.quick "May I build a fence?" Toy.w_indexed).2
           (mk_QueryResult "Yes, with approval."
              ["Bylaws.pdf (Page 2)"; "Bylaws.pdf (Page 1)"])).
  vm_compute. reflexivity.
Defined.

Example chunk_without_page_fails_the_query :
  (@app Toy.quick POST "/api/ask" (JsonQuestion Toy.fence_question)
     Fixtures.w_unpaged).1
  = Some (mk_Response 500
            (Detail
               ("Error querying RAG system: can only concatenate str (not "
                +:+ DQ +:+ "int" +:+ DQ +:+ ") to str"))).
Proof. by vm_compute. Qed.

(** ** Uploading without an LLM *)

Section NoLlm.
Context {L : Libraries}.

Lemma ask_uninitialized (q : Question) (w : World) :
  qa_chain (rag_service w) = None ->
  (app POST "/api/ask" (JsonQuestion q) w).1
  = Some (mk_Response 500 (Detail not_initialized_message)).
Proof.
  intros Hnone.
  change (app POST "/api/ask" (JsonQuestion q) w)
    with (let '(o, w') := ask_question q w in (respond Json o, w')).
  assert (wp (ask_question q)
            (fun o _ =>
               o = Raised (HTTPException 500 not_initialized_message)) w)
    as Hask.
  { unfold ask_question, query. by wp_go. }
  unfold wp in Hask. destruct (ask_question q w) as [o w'].
  simpl in *. by subst o.
Qed.

(** X14: in a server that started without an LLM (its configuration
    failed), an upload can succeed, with status 200, and every question
    asked afterwards is still answered with HTTP 500 and the
    not-initialized message. *)
Theorem upload_without_llm_cannot_answer (f : UploadFile) (q : Question)
    (w w' : World) (b : Body) :
  reachable w ->
  llm (rag_service w) = None ->
  upload_bylaws f w = (Returned b, w') ->
  (app POST "/api/upload-bylaws" (FormFile f) w).1
  = Some (mk_Response 200 (Json b))
  /\ (app POST "/api/ask" (JsonQuestion q) w').1
     = Some (mk_Response 500 (Detail not_initialized_message)).
Proof.
  intros Hreach Hllm Hrun.
  assert (app POST "/api/upload-bylaws" (FormFile f) w
          = (Some (mk_Response 200 (Json b)), w')) as Happ.
  { change (app POST "/api/upload-bylaws" (FormFile f) w)
      with (let '(o, w') := upload_bylaws f w in (respond Json o, w')).
    by rewrite Hrun. }
  split; [by rewrite Happ|].
  apply ask_uninitialized.
  assert (reachable w') as Hreach'.
  { change w' with (Some (mk_Response 200 (Json b)), w').2.
    rewrite <- Happ. by apply reach_request. }
  pose proof (app_service_steps POST "/api/upload-bylaws" (FormFile f) w)
    as (Hsame & _).
  rewrite Happ in Hsame. simpl in Hsame.
  destruct (reachable_service_inv w' Hreach') as (_ & Hchain & _).
  destruct (qa_chain (rag_service w')) as [c|] eqn:Hq; [|done].
  destruct (Hchain c eq_refl) as (_ & Hl & _). congruence.
Qed.

End NoLlm.

Lemma upload_without_llm_cannot_answer_witness :
  (@app Toy.quick POST "/api/upload-bylaws" (FormFile Toy.bylaws)
     Fixtures.w_no_llm).1
  = Some (mk_Response 200
            (Json (Uploaded
                     "Document Bylaws.pdf uploaded and indexed successfully"
                     "Bylaws.pdf" 4)))
  /\ (@app Toy.quick POST "/api/ask" (JsonQuestion Toy.fence_question)
       (@upload_bylaws Toy.quick Toy.bylaws Fixtures.w_no_llm).2).1
     = Some (mk_Response 500 (Detail not_initialized_message)).
Proof.
  apply (@upload_without_llm_cannot_answer Toy.quick).
  - apply reach_start.
  - vm_compute. reflexivity.
  - vm_compute. reflexivity.
Defined.

(** ** More on change requests *)

Section MoreSubmit.
Context {L : Libraries}.

Lemma submit_effects (request : ChangeRequest) (w : World) :
  wp (submit_change_request request)
    (fun o w' =>
       rag_service w' = rag_service w
       /\ trace w' = trace w
       /\ ((exists b, o = Returned b)
           \/ (exists detail,
                 o = Raised (HTTPException 500 detail)
                 /\ files w' = files w)))
    w.
Proof.
  unfold submit_change_request. wp_go.
  all: try match goal with
           | H : dict_get _ _ = _ |- _ => simpl in H; discriminate
           end.
  all: split_and!; [done|done|].
  all: first [ left; eexists; reflexivity
             | right; eexists; split; reflexivity ].
Qed.

(** X15: [/api/submit-request] answers with the response body or with
    HTTP 500; when it answers 500 no file has been written; in both cases
    the service object is untouched and no library is called. *)
Theorem submit_outcomes (request : ChangeRequest) (w : World) :
  rag_service (submit_change_request request w).2 = rag_service w
  /\ trace (submit_change_request request w).2 = trace w
  /\ ((exists b, (submit_change_request request w).1 = Returned b)
      \/ (exists detail,
            (submit_change_request request w).1
            = Raised (HTTPException 500 detail)
            /\ files (submit_change_request request w).2 = files w)).
Proof. apply submit_effects. Qed.

(** X16: the request id has the resolution of a second: when two
    requests are submitted within the same second, they get the same id,
    and the file of the second replaces the file of the first. *)
Theorem same_second_requests_collide (r1 r2 : ChangeRequest)
    (w w1 w2 : World) (b1 b2 : Body) :
  submit_change_request r1 w = (Returned b1, w1) ->
  submit_change_request r2 w1 = (Returned b2, w2) ->
  Py.strftime_compact (clock (ticks w))
  = Py.strftime_compact (clock (ticks w1)) ->
  let request_id := "REQ-" +:+ Py.strftime_compact (clock (ticks w)) in
  let at1 := Py.isoformat (clock (S (ticks w))) in
  let at2 := Py.isoformat (clock (S (ticks w1))) in
  b1 = ChangeRequestResponse request_id "submitted" at1
  /\ b2 = ChangeRequestResponse request_id "submitted" at2
  /\ files w2
     = <["requests/" +:+ request_id +:+ ".json"
         := CJson (request_record r2 request_id at2)]> (files w).
Proof.
  intros Hrun1 Hrun2 Hsame. simpl.
  pose proof (submit_spec r1 w) as Hspec1. cbv zeta in Hspec1.
  pose proof (wp_run _ _ _ _ _ Hrun1 Hspec1) as Hpost1. simpl in Hpost1.
  destruct (Hpost1 b1 eq_refl) as [Hfiles1 ->].
  pose proof (submit_spec r2 w1) as Hspec2. cbv zeta in Hspec2.
  pose proof (wp_run _ _ _ _ _ Hrun2 Hspec2) as Hpost2. simpl in Hpost2.
  destruct (Hpost2 b2 eq_refl) as [Hfiles2 ->].
  rewrite <- Hsame in *. split_and!; [done|done|].
  rewrite Hfiles2, Hfiles1. apply insert_insert_eq.
Qed.

End MoreSubmit.

Lemma same_second_requests_collide_witness :
  files
    (@submit_change_request Fixtures.frozen Fixtures.pool_request
       (@submit_change_request Fixtures.frozen Toy.fence_request
          Toy.w_started).2).2
  = <["requests/REQ-20240307090500.json"
      := CJson (request_record Fixtures.pool_request "REQ-20240307090500"
                  "2024-03-07T09:05:00")]> (files Toy.w_started).
Proof.
  destruct (@same_second_requests_collide Fixtures.frozen
              Toy.fence_request Fixtures.pool_request Toy.w_started
              (@submit_change_request Fixtures.frozen Toy.fence_request
                 Toy.w_started).2
              (@submit_change_request Fixtures.frozen Fixtures.pool_request
                 (@submit_change_request Fixtures.frozen Toy.fence_request
                    Toy.w_started).2).2
              (ChangeRequestResponse "REQ-20240307090500" "submitted"
                 "2024-03-07T09:05:00")
              (ChangeRequestResponse "REQ-20240307090500" "submitted"
                 "2024-03-07T09:05:00"))
    as (_ & _ & Hfiles).
  - vm_compute. reflexivity.
  - vm_compute. reflexivity.
  - vm_compute. reflexivity.
  - exact Hfiles.
Defined.

Example blocked_requests_directory :
  (@app Toy.quick POST "/api/submit-request"
     (JsonChangeRequest Toy.fence_request) Fixtures.w_requests_blocked).1
  = Some (mk_Response 500 (Detail "[Errno 17] File exists: 'requests'")).
Proof. by vm_compute. Qed.

(** ** More on uploads *)

Section MoreUpload.
Context {L : Libraries}.

Lemma upload_outcomes_spec (f : UploadFile) (w : World) :
  wp (upload_bylaws f)
    (fun o _ =>
       o = Returned
             (Uploaded
                ("Document " +:+ filename f
                 +:+ " uploaded and indexed successfully")
                (filename f) (length (file_bytes f)))
       \/ o = Raised (HTTPException 400 "Only PDF files are allowed")
       \/ o = Raised (HTTPException 400 "Uploaded file is empty")
       \/ (exists msg,
             o = Raised
                   (HTTPException 500
                      ("Error processing document: " +:+ msg)))
       \/ o = Hangs)
    w.
Proof.
  unfold upload_bylaws.
  destruct (Py.endswith (filename f) ".pdf"); simpl;
    [|apply wp_raise; auto].
  destruct (file_bytes f) as [|b0 bs] eqn:Hbytes; simpl.
  { wp_go; try (unfold os_error in *; discriminate); auto.
    all: do 3 right; left; eexists; reflexivity. }
  wp_go.
  all: try (unfold os_error in *; discriminate).
  all: try (do 3 right; left; eexists; reflexivity).
  all: eapply wp_mono; [apply index_document_raises|].
  all: intros [[]|e| |] w' [Hnot Hwrapped]; wsimpl; [| |done|by auto 10].
  all: try (wp_go; by left).
  all: destruct (Hwrapped e eq_refl) as [msg ->]; wp_go.
  all: do 3 right; left; eexists; reflexivity.
Qed.

(** X17: whatever [/api/upload-bylaws] answers is one of: success, naming
    the file and its size; HTTP 400 for a name that is not [.pdf]; HTTP
    400 for an empty file; HTTP 500 with a detail that starts with
    [Error processing document: ].  It never answers anything else;
    what remains is that it gives no answer at all (a library call of the
    indexing that never returns blocks the handler). *)
Theorem upload_outcomes (f : UploadFile) (w : World) :
  (upload_bylaws f w).1
  = Returned
      (Uploaded
         ("Document " +:+ filename f
          +:+ " uploaded and indexed successfully")
         (filename f) (length (file_bytes f)))
  \/ (upload_bylaws f w).1
     = Raised (HTTPException 400 "Only PDF files are allowed")
  \/ (upload_bylaws f w).1
     = Raised (HTTPException 400 "Uploaded file is empty")
  \/ (exists msg,
        (upload_bylaws f w).1
        = Raised
            (HTTPException 500 ("Error processing document: " +:+ msg)))
  \/ (upload_bylaws f w).1 = Hangs.
Proof. apply upload_outcomes_spec. Qed.




End MoreUpload.



(** ** [reindex.py] *)

Global Instance outside_index_preorder : PreOrder outside_index.
Proof.
  split.
  - by intros w Hdir.
  - intros w1 w2 w3 H12 H23 Hdir.
    destruct (H12 Hdir) as [Hdir2 Hk2]. destruct (H23 Hdir2) as [Hdir3 Hk3].
    split; [exact Hdir3|]. intros k Hfaiss Hpkl.
    by rewrite Hk3, Hk2.
Qed.

Section Reindexing.
Context {L : Libraries} {O : Listing}.

Lemma emits_mono (P Q : Event -> Prop) (w w' : World) :
  (forall e, P e -> Q e) -> emits P w w' -> emits Q w w'.
Proof.
  intros HPQ (evs & Htrace & Hall). exists evs. split; [exact Htrace|].
  by eapply Forall_impl.
Qed.

Lemma wp_os_listdir (p : string) (Q : Outcome (list string) -> World -> Prop)
    (w : World) :
  (Py.canonical p ∈ dirs w ->
     Q (Returned (listdir_order (entries_of (Py.canonical p) w))) w) ->
  (forall errno msg, Py.canonical p ∉ dirs w ->
     Q (Raised (os_error errno msg p)) w) ->
  wp (os_listdir p) Q w.
Proof.
  intros Hdir Hnot. unfold wp, os_listdir. case_bool_decide.
  - by apply Hdir.
  - destruct (files w !! _); simpl; by apply Hnot.
Qed.

Lemma steps_os_listdir (R : World -> World -> Prop) `{!PreOrder R}
    (p : string) :
  steps R (os_listdir p).
Proof.
  intros w. unfold os_listdir. case_bool_decide; [reflexivity|].
  destruct (files w !! _); reflexivity.
Qed.

Lemma pdf_names_spec (names : list string) (name : string) :
  name ∈ pdf_names names
  <-> name ∈ names /\ Py.endswith name ".pdf" = true.
Proof.
  unfold pdf_names. rewrite !list_elem_of_In.
  apply (filter_In (fun f => Py.endswith f ".pdf")).
Qed.

(** *** What the parts of the script do to the state *)

Lemma index_each_steps (R : World -> World -> Prop) `{!PreOrder R}
    (docs_dir : string) (pdf_files : list string) :
  (forall p, steps R (index_document p)) ->
  steps R (index_each docs_dir pdf_files).
Proof.
  intros Hindex. induction pdf_files as [|pdf rest IH]; simpl.
  - by apply steps_ret.
  - apply steps_bind; [done| |by intros _].
    apply steps_try_except; [done|apply Hindex|].
    intros e. by apply steps_ret.
Qed.

Lemma after_construction_steps (R : World -> World -> Prop) `{!PreOrder R} :
  (forall p, steps R (index_document p)) ->
  (forall q, steps R (query q)) ->
  steps R
    (names <- os_listdir "documents" ;;
     index_each "documents" (pdf_names names) ;;
     try_except (query test_question ;; ret tt) (fun _ => ret tt)).
Proof.
  intros Hindex Hquery.
  apply steps_bind; [done|by apply steps_os_listdir|]. intros names.
  apply steps_bind; [done|by apply index_each_steps|]. intros _.
  apply steps_try_except; [done| |intros e; by apply steps_ret].
  apply steps_bind; [done|apply Hquery|]. intros r. by apply steps_ret.
Qed.

Lemma index_each_never_raises (docs_dir : string)
    (pdf_files : list string) (w : World) (e : Exc) :
  (index_each docs_dir pdf_files w).1 <> Raised e.
Proof.
  revert w. induction pdf_files as [|pdf rest IH]; intros w; [done|].
  simpl. unfold bind, try_except.
  destruct (index_document _ w) as [[[]|e0| |] w1]; simpl; try done.
  all: apply IH.
Qed.

(** *** The files *)

Lemma read_only_outside_index (w w' : World) :
  read_only w w' -> outside_index w w'.
Proof.
  intros (Hservice & Hfiles & _) Hdir.
  by rewrite Hservice, Hfiles.
Qed.

Lemma index_document_outside_index (file_path : string) :
  steps outside_index (index_document file_path).
Proof.
  intros w Hdir.
  destruct (index_document_service_steps file_path w)
    as (_ & _ & Hpersist & _).
  pose proof (index_document_files file_path w) as Hfiles.
  unfold wp, index_files_only, index_faiss, index_pkl in Hfiles.
  rewrite Hdir in Hfiles.
  split; [congruence|]. intros k Hfaiss Hpkl. by apply Hfiles.
Qed.

(** X20: the script only ever writes the two files of the saved index:
    every other file, the documents among them, is afterwards what it was
    before. *)
Theorem reindex_writes_only_the_index (w : World) (k : string) :
  k <> "faiss_index/index.faiss" ->
  k <> "faiss_index/index.pkl" ->
  files (reindex_documents w).2 !! k = files w !! k.
Proof.
  intros Hfaiss Hpkl. revert k Hfaiss Hpkl.
  change (wp reindex_documents
            (fun _ w' =>
               forall k,
                 k <> "faiss_index/index.faiss" ->
                 k <> "faiss_index/index.pkl" ->
                 files w' !! k = files w !! k) w).
  unfold reindex_documents. apply wp_bind.
  pose proof (init_outcome_files w) as Hinit.
  pose proof (init_service_inv w) as Hinv. unfold wp in Hinit, Hinv.
  unfold wp at 1.
  destruct (RAGService__init__ w) as [o w1]. simpl in *.
  destruct Hinit as (Ho & Hfiles & _). destruct Hinv as (Hdir & _).
  destruct Ho as [-> | ->]; wsimpl; [|intros; by rewrite Hfiles].
  eapply wp_mono.
  { apply (wp_of_steps outside_index), after_construction_steps;
      [apply _| |].
    - apply index_document_outside_index.
    - intros q w0. apply read_only_outside_index, query_reads. }
  intros o2 w2 Houtside k Hfaiss Hpkl. simpl in Houtside.
  destruct (Houtside Hdir) as [_ Hsame].
  by rewrite Hsame, Hfiles.
Qed.

(** *** The store *)

(** X21: re-indexing does not start from an empty index: when a saved
    index is on disk and the service can be configured, the chunks of the
    saved index all stay in the store, in front of whatever the run
    adds. *)
Theorem reindex_adds_to_the_saved_index (w : World) (emb : Embeddings)
    (the_llm : LLM) (n : nat) (docs : list Document) (d : N) :
  _get_embeddings (environ w) = Ok emb ->
  _get_llm (environ w) = Ok the_llm ->
  files w !! "faiss_index/index.faiss" = Some (CFaissIndex n) ->
  files w !! "faiss_index/index.pkl" = Some (CPickle docs) ->
  latency (FAISS_load_local "./faiss_index") = Some d ->
  exists extra,
    stored_docs (rag_service (reindex_documents w).2) = docs ++ extra.
Proof.
  intros Hemb Hllm Hfaiss Hpkl Hlat.
  change (wp reindex_documents
            (fun _ w' =>
               exists extra,
                 stored_docs (rag_service w') = docs ++ extra) w).
  unfold reindex_documents. apply wp_bind.
  eapply wp_mono;
    [exact (init_loads_index w emb the_llm n docs d Hemb Hllm Hfaiss Hpkl
              Hlat)|].
  intros o w1 (-> & Hstore & _). wsimpl.
  eapply wp_mono.
  { apply (wp_of_steps service_steps), after_construction_steps;
      [apply _| |].
    - apply index_document_service_steps.
    - intros q w0. apply service_steps_same, query_reads. }
  intros o2 w2 (_ & _ & _ & (extra & Hextra) & _). simpl in Hextra.
  exists extra. rewrite Hextra. unfold stored_docs. by rewrite Hstore.
Qed.

(** *** The directory [documents] *)

(** X22: the script needs the directory [documents].  When it is there,
    the script never raises, whatever happens to the documents and to the
    test query; when it is not, the script builds the service and then
    dies of the [OSError] of [os.listdir], with nothing indexed. *)
Theorem reindex_needs_the_directory (w : World) :
  ("documents" ∈ dirs w -> forall e, (reindex_documents w).1 <> Raised e)
  /\ ("documents" ∉ dirs w ->
      (RAGService__init__ w).1 = Returned tt ->
      exists errno msg,
        reindex_documents w
        = (Raised (os_error errno msg "documents"),
           (RAGService__init__ w).2)).
Proof.
  pose proof (init_outcome_files w) as Hinit. unfold wp in Hinit.
  unfold reindex_documents, bind, os_listdir.
  change (Py.canonical "documents") with "documents".
  destruct (RAGService__init__ w) as [o w1]. simpl in *.
  destruct Hinit as (Ho & _ & Hdirs).
  split.
  - intros Hdir e. destruct Ho as [-> | ->]; [|done].
    rewrite bool_decide_eq_true_2 by (by rewrite Hdirs).
    pose proof (index_each_never_raises "documents"
                  (pdf_names (listdir_order (entries_of "documents" w1)))
                  w1) as Heach.
    destruct (index_each _ _ w1) as [[[]|e0| |] w2]; simpl in *;
      [|by destruct (Heach e0)|done|done].
    unfold try_except.
    by destruct (query test_question w2) as [[r|e1| |] w3].
  - intros Hnodir ->.
    rewrite bool_decide_eq_false_2 by (by rewrite Hdirs).
    destruct (files w1 !! "documents"); simpl; by eexists _, _.
Qed.

(** *** The documents it reads *)

Ltac loading :=
  intros;
  first [ by apply emits_same
        | apply emits_one; intros ? ? ?; by simplify_eq ].

Lemma index_document_loads (file_path : string) :
  steps (emits (loads_only file_path)) (index_document file_path).
Proof.
  unfold index_document, FAISS_add, FAISS_from, FAISS_save, PyPDFLoader,
    RecursiveCharacterTextSplitter, _initialize_qa_chain.
  steps_walk loading ltac:(apply keeps_trace_update_self).
Qed.

Lemma init_loads_nothing (names : list string) :
  steps (emits (loads_pdf_of names)) RAGService__init__.
Proof.
  unfold RAGService__init__, _initialize, _initialize_qa_chain, FAISS_load.
  steps_walk loading ltac:(apply keeps_trace_update_self).
Qed.

Lemma query_loads_nothing (names : list string) (q : string) :
  steps (emits (loads_pdf_of names)) (query q).
Proof.
  unfold query, chain_invoke, retriever_get.
  steps_walk loading ltac:(apply keeps_trace_update_self).
Qed.

Lemma index_each_loads (names pdf_files : list string) :
  (forall name, name ∈ pdf_files ->
     name ∈ names /\ Py.endswith name ".pdf" = true) ->
  steps (emits (loads_pdf_of names)) (index_each "documents" pdf_files).
Proof.
  induction pdf_files as [|pdf rest IH]; intros Hall; simpl.
  - apply steps_ret, _.
  - apply steps_bind; [apply _| |].
    + apply steps_try_except; [apply _| |intros e; apply steps_ret, _].
      intros w. eapply emits_mono; [|apply index_document_loads].
      intros e He wh p Hcall. exists pdf.
      destruct (Hall pdf) as [Hin Hpdf]; [by left|].
      split_and!; [done|done|]. by apply (He wh p).
    + intros _. apply IH. intros name Hin. apply Hall. by right.
Qed.

(** X23: the only documents the script loads are the entries of the
    directory [documents] itself, as it was when the script started,
    whose name ends with [.pdf] in lower case; it does not descend into
    sub-directories. *)
Theorem reindex_loads_listed_pdfs (w : World) :
  exists evs,
    trace (reindex_documents w).2 = trace w ++ evs
    /\ forall wh p,
         Called wh (PyPDFLoader_load p) ∈ evs ->
         exists name,
           name ∈ entries_of "documents" w
           /\ Py.endswith name ".pdf" = true
           /\ p = Py.path_join "documents" name.
Proof.
  assert (emits (loads_pdf_of (entries_of "documents" w)) w
            (reindex_documents w).2) as (evs & Htrace & Hall).
  { change (wp reindex_documents
              (fun _ w' =>
                 emits (loads_pdf_of (entries_of "documents" w)) w w') w).
    unfold reindex_documents. apply wp_bind.
    pose proof (init_outcome_files w) as Hinit.
    pose proof (init_loads_nothing (entries_of "documents" w) w) as Hnone.
    unfold wp in Hinit. unfold wp at 1.
    destruct (RAGService__init__ w) as [o w1]. simpl in *.
    destruct Hinit as (Ho & Hfiles & Hdirs).
    destruct Ho as [-> | ->]; wsimpl; [|exact Hnone].
    apply wp_bind, wp_os_listdir; [|intros; exact Hnone].
    intros _. wsimpl. apply wp_bind.
    change (Py.canonical "documents") with "documents".
    eapply wp_mono.
    { apply (wp_of_steps
               (emits (loads_pdf_of (entries_of "documents" w)))).
      apply index_each_loads. intros name Hin.
      apply pdf_names_spec in Hin as [Hin Hpdf]. split; [|exact Hpdf].
      rewrite listdir_order_perm in Hin.
      unfold entries_of in *. by rewrite <- Hfiles, <- Hdirs. }
    intros o2 w2 Heach. simpl in Heach.
    assert (emits (loads_pdf_of (entries_of "documents" w)) w w2)
      as Hsofar by (etrans; [exact Hnone|exact Heach]).
    destruct o2 as [[]|e| |]; wsimpl; try exact Hsofar.
    eapply wp_mono.
    { apply (wp_of_steps
               (emits (loads_pdf_of (entries_of "documents" w)))).
      apply steps_try_except; [apply _| |intros e; apply steps_ret, _].
      apply steps_bind; [apply _|apply query_loads_nothing|].
      intros r. apply steps_ret, _. }
    intros o3 w3 Hquery. simpl in Hquery. etrans; [exact Hsofar|exact Hquery]. }
  exists evs. split; [exact Htrace|]. intros wh p Hin.
  rewrite Forall_forall in Hall. by apply (Hall _ Hin wh p).
Qed.

End Reindexing.

Lemma reindex_writes_only_the_index_witness :
  files
    (@reindex_documents Toy.quick Fixtures.in_listing_order Fixtures.w_disk).2
  !! "documents/Bylaws.pdf"
  = files Fixtures.w_disk !! "documents/Bylaws.pdf".
Proof.
  apply (@reindex_writes_only_the_index Toy.quick Fixtures.in_listing_order
           Fixtures.w_disk "documents/Bylaws.pdf").
  - discriminate.
  - discriminate.
Defined.

Lemma reindex_adds_to_the_saved_index_witness :
  exists extra,
    stored_docs
      (rag_service
         (@reindex_documents Toy.quick Fixtures.in_listing_order
            Fixtures.w_disk).2)
    = stored_docs (rag_service Toy.w_indexed) ++ extra.
Proof.
  apply (@reindex_adds_to_the_saved_index Toy.quick Fixtures.in_listing_order
           Fixtures.w_disk
           (HuggingFaceEmbeddings "sentence-transformers/all-MiniLM-L6-v2")
           (Ollama "http://localhost:11434" "mistral" 120)
           (length (stored_docs (rag_service Toy.w_indexed)))
           (stored_docs (rag_service Toy.w_indexed)) 1%N).
  - vm_compute. reflexivity.
  - vm_compute. reflexivity.
  - vm_compute. reflexivity.
  - vm_compute. reflexivity.
  - vm_compute. reflexivity.
Defined.

Lemma reindex_needs_the_directory_witness :
  (forall e,
     (@reindex_documents Toy.quick Fixtures.in_listing_order
        Fixtures.w_disk).1 <> Raised e)
  /\ exists errno msg,
       @reindex_documents Toy.quick Fixtures.in_listing_order Toy.w_started
       = (Raised (os_error errno msg "documents"),
          (@RAGService__init__ Toy.quick Toy.w_started).2).
Proof.
  split.
  - destruct (@reindex_needs_the_directory Toy.quick
                Fixtures.in_listing_order Fixtures.w_disk) as [Hthere _].
    apply Hthere. vm_compute. reflexivity.
  - destruct (@reindex_needs_the_directory Toy.quick
                Fixtures.in_listing_order Toy.w_started) as [_ Hmissing].
    apply Hmissing.
    + vm_compute. discriminate.
    + vm_compute. reflexivity.
Defined.
